(** * COCO annotation adapters of the Faster-RCNN data pipeline

    A shallow embedding of
    [3. Model/objectdetection/Faster-RCNN/utils/dataset.py]:
    the two dataset classes [myCocoDetection] and [myCocolimit], together
    with the part of the annotation store ([pycocotools.coco.COCO]) and of
    the base class ([torchvision.datasets.CocoDetection]) they call. *)

From Stdlib Require Import ZArith Floats.
From stdpp Require Import gmap strings list sorting.

Set Warnings "-inexact-float".
Open Scope Z_scope.

(** ** Python exceptions and fallible computations *)

Inductive exn :=
  | IndexError      (* list index out of range *)
  | KeyError        (* missing dictionary key *)
  | IOError         (* image file missing or unreadable *)
  | RuntimeError    (* raised by the tensor library *)
  | OtherError (msg : string).

Inductive result (X : Type) :=
  | Ok (x : X)
  | Raise (e : exn).
Arguments Ok {X} x.
Arguments Raise {X} e.

#[export] Instance result_ret : MRet result := λ X x, Ok x.
#[export] Instance result_bind : MBind result := λ X Y f m,
  match m with
  | Ok x => f x
  | Raise e => Raise e
  end.

Definition of_option {X} (e : exn) (o : option X) : result X :=
  match o with
  | Some x => Ok x
  | None => Raise e
  end.

(** [l[i]] on a Python list: a negative index counts from the end, and
    anything outside [-len(l), len(l))] raises [IndexError]. *)
Definition py_index {X} (l : list X) (i : Z) : result X :=
  let n := Z.of_nat (length l) in
  let j := if decide (i < 0) then i + n else i in
  if decide (0 ≤ j < n) then of_option IndexError (l !! Z.to_nat j)
  else Raise IndexError.

(** ** Numbers

    The coordinates of a box are whatever numbers the annotation file
    holds; the code only adds them and compares them with [1]. *)

Class Number (A : Type) := {
  num_one : A;
  num_add : A → A → A;
  num_sub : A → A → A;
  num_leb : A → A → bool;
  num_eqb : A → A → bool;
}.

(** Python [int]: unbounded integers. *)
#[export] Instance int_number : Number Z := {|
  num_one := 1;
  num_add := Z.add;
  num_sub := Z.sub;
  num_leb := Z.leb;
  num_eqb := Z.eqb;
|}.

(** Python [float]: IEEE 754 binary64. *)
#[export] Instance float_number : Number float := {|
  num_one := 1%float;
  num_add := PrimFloat.add;
  num_sub := PrimFloat.sub;
  num_leb := PrimFloat.leb;
  num_eqb := PrimFloat.eqb;
|}.

(** ** The annotation store (pycocotools.coco.COCO) *)

Module COCO.
Section store.
Context {A : Type}.

(** One entry of [dataset['annotations']]. *)
Record annotation := {
  ann_id : Z;            (* 'id' *)
  image_id : Z;          (* 'image_id' *)
  category_id : Z;       (* 'category_id' *)
  bbox : list A;         (* 'bbox' *)
}.

(** One entry of [dataset['images']]. *)
Record image_info := {
  img_id : Z;            (* 'id' *)
  file_name : string;    (* 'file_name' *)
}.

(** One entry of [dataset['categories']]. *)
Record category := {
  cat_id : Z;            (* 'id' *)
  name : string;         (* 'name' *)
}.

Record dataset := {
  images : list image_info;
  annotations : list annotation;
  categories : list category;
}.

Record t := {
  ds : dataset;
  anns : gmap Z annotation;
  imgs : gmap Z image_info;
  imgToAnns : gmap Z (list annotation);  (* a defaultdict(list) *)
  catToImgs : gmap Z (list Z);           (* a defaultdict(list) *)
}.

(** [d[k].append(v)] on a [defaultdict(list)]. *)
Definition append_at {V} (k : Z) (v : V) (d : gmap Z (list V)) : gmap Z (list V) :=
  <[k := default [] (d !! k) ++ [v]]> d.

(** [createIndex]: every annotation is filed under its own id and appended
    to the list of its image; every image is filed under its id; every
    annotation's image id is appended to the list of its category. *)
Definition createIndex (d : dataset) : t := {|
  ds := d;
  anns := foldl (λ m ann, <[ann_id ann := ann]> m) ∅ (annotations d);
  imgs := foldl (λ m img, <[img_id img := img]> m) ∅ (images d);
  imgToAnns := foldl (λ m ann, append_at (image_id ann) ann m) ∅ (annotations d);
  catToImgs := foldl (λ m ann, append_at (category_id ann) (image_id ann) m) ∅ (annotations d);
|}.

(** [getAnnIds(imgIds=imgId)] with a single image id and no other filter:
    the ids of [imgToAnns[imgId]] when [imgId] is a key, else nothing. *)
Definition getAnnIds (c : t) (imgId : Z) : list Z :=
  ann_id <$> default [] (imgToAnns c !! imgId).

(** [loadAnns(ids)]: [[self.anns[id] for id in ids]]. *)
Definition loadAnns (c : t) (ids : list Z) : result (list annotation) :=
  mapM (λ i, of_option KeyError (anns c !! i)) ids.

(** [getCatIds(catNms=catNms)]: with no names every category id is
    returned, otherwise the ids of the categories whose name is listed. *)
Definition getCatIds (c : t) (catNms : list string) : list Z :=
  let cats :=
    if decide (length catNms = 0%nat) then categories (ds c)
    else filter (λ cat, name cat ∈ catNms) (categories (ds c)) in
  cat_id <$> cats.

(** [getImgIds(catIds=catId)] with one category id:
    [list(set(self.catToImgs[catId]))]. Python leaves the order in which a
    set is listed open; [elements] fixes one, and no statement below
    depends on which. *)
Definition getImgIds (c : t) (catId : Z) : list Z :=
  elements (list_to_set (default [] (catToImgs c !! catId)) : gset Z).

(** [loadImgs(id)] with one id: [[self.imgs[id]]]. *)
Definition loadImgs (c : t) (id : Z) : result (list image_info) :=
  img ← of_option KeyError (imgs c !! id); Ok [img].
End store.
Arguments annotation : clear implicits.
Arguments dataset : clear implicits.
Arguments t : clear implicits.
End COCO.

(** ** The base class (torchvision.datasets.CocoDetection)

    Its constructor builds the store and sets
    [self.ids = list(sorted(self.coco.imgs.keys()))]. *)

Module CocoDetection.
Definition ids {A} (coco : COCO.t A) : list Z :=
  merge_sort Z.le (elements (dom (COCO.imgs coco))).
End CocoDetection.

(** ** What the two dataset classes share

    [is_valid_data], [__getitem__] and [_load_image] have the same text in
    [myCocoDetection] and in [myCocolimit], and so has the validation loop
    of the two constructors; they are written once here, over the parts in
    which the classes differ. *)

Section shared.
Context {A : Type} `{Number A}.
(** [Image]: decoded pictures, before or after the transform.
    [F32]: the elements of a [torch.FloatTensor]. *)
Context {Image F32 : Type} (FloatTensor : A → F32).

(** The caller's [transform], as it acts on a picture and on the array
    [np.array(bboxes)]; of the tensor it returns for the array only the
    elements matter, in row-major order. *)
Record Transform := {
  on_image : Image → result Image;
  on_array : list (list A) → result (list A);
}.

(** [targets] of the transform branch. *)
Record Target := {
  boxes : list (list F32);   (* targets['boxes'] *)
  labels : list Z;           (* targets['labels'] *)
}.

(** The two shapes of tuple [__getitem__] returns. *)
Inductive item :=
  | Plain (image : Image) (bboxes : list (list A)) (labels : list Z)
  | Sample (idx : Z) (image : Image) (targets : Target).

(** [for o in obj['bbox'][2:]: if o <= 1: return False]; [true] when the
    inner loop has returned. *)
Fixpoint small_side (os : list A) : bool :=
  match os with
  | [] => false
  | o :: os' => if num_leb o num_one then true else small_side os'
  end.

(** [for obj in anno: ...; return True] *)
Fixpoint all_boxes_ok (anno : list (COCO.annotation A)) : bool :=
  match anno with
  | [] => true
  | obj :: anno' =>
      if small_side (drop 2 (COCO.bbox obj)) then false else all_boxes_ok anno'
  end.

Definition is_valid_data (anno : list (COCO.annotation A)) : bool :=
  if decide (length anno = 0%nat) then false else all_boxes_ok anno.

(** The validation loop of the constructors:
    [for img_id in self.ids: ... if self.is_valid_data(anno): ids.append(img_id)] *)
Fixpoint remove_invalid (coco : COCO.t A) (self_ids ids : list Z) : result (list Z) :=
  match self_ids with
  | [] => Ok ids
  | img_id :: rest =>
      let ann_ids := COCO.getAnnIds coco img_id in
      anno ← COCO.loadAnns coco ann_ids;
      remove_invalid coco rest (if is_valid_data anno then ids ++ [img_id] else ids)
  end.

(** [_load_image]; the directory [root] is the partial map from a file
    name to the picture [Image.open(...).convert("RGB")] decodes there. *)
Definition _load_image (root : string → option Image) (coco : COCO.t A) (id : Z)
  : result Image :=
  infos ← COCO.loadImgs coco id;
  info ← py_index infos 0;
  of_option IOError (root (COCO.file_name info)).

(** The corner form of one box:
    [[b[0], b[1], b[0] + b[2], b[1] + b[3]]] for [b = obj['bbox']]. *)
Definition corners (b : list A) : result (list A) :=
  x1 ← py_index b 0;
  y1 ← py_index b 1;
  x2 ← (b0 ← py_index b 0; b2 ← py_index b 2; Ok (num_add b0 b2));
  y2 ← (b1 ← py_index b 1; b3 ← py_index b 3; Ok (num_add b1 b3));
  Ok [x1; y1; x2; y2].

(** [for obj in target: ... bboxes.append(bbox); labels.append(obj['category_id'])] *)
Fixpoint box_loop (target : list (COCO.annotation A))
    (bboxes : list (list A)) (labels : list Z) : result (list (list A) * list Z) :=
  match target with
  | [] => Ok (bboxes, labels)
  | obj :: target' =>
      bbox ← corners (COCO.bbox obj);
      box_loop target' (bboxes ++ [bbox]) (labels ++ [COCO.category_id obj])
  end.

(** [.reshape(-1, 4)]: rows of four; the tensor library raises when the
    number of elements is not a multiple of four. *)
Fixpoint reshape4 {X} (l : list X) : result (list (list X)) :=
  match l with
  | [] => Ok []
  | a :: b :: c :: d :: l' => rows ← reshape4 l'; Ok ([a; b; c; d] :: rows)
  | _ => Raise RuntimeError
  end.

(** [torch.tensor(labels).type(torch.int64)]: the values are kept; one
    outside the 64-bit range cannot be stored. *)
Definition tensor_int64 (l : list Z) : result (list Z) :=
  if decide (Forall (λ z, - 2 ^ 63 ≤ z < 2 ^ 63) l) then Ok l else Raise RuntimeError.

(** The body of [__getitem__], over the fields of [self] and the class's
    own [_load_target]. *)
Definition getitem (ids : list Z) (root : string → option Image) (coco : COCO.t A)
    (transform : option Transform) (show : bool)
    (_load_target : Z → result (list (COCO.annotation A))) (index : Z) : result item :=
  idx ← py_index ids index;
  image ← _load_image root coco idx;
  target ← _load_target idx;
  '(bboxes, labels) ← box_loop target [] [];
  if show then Ok (Plain image bboxes labels)
  else match transform return result item with
  | Some tf =>
      image ← on_image tf image;
      flat ← on_array tf bboxes;
      bboxes ← reshape4 (flat : list A);
      labels ← tensor_int64 labels;
      let bboxes := map (map FloatTensor) bboxes in
      Ok (Sample idx image {| boxes := bboxes; labels := labels |})
  | None => Ok (Plain image bboxes labels)
  end.
End shared.
Arguments Transform : clear implicits.
Arguments Target : clear implicits.
Arguments item : clear implicits.

(** ** class myCocoDetection(CocoDetection) *)

Module myCocoDetection.
Section cls.
Context {A : Type} `{Number A} {Image F32 : Type} (FloatTensor : A → F32).

Record t := {
  root : string → option Image;
  coco : COCO.t A;
  ids : list Z;
  transform : option (Transform A Image);
  show : bool;
}.

Definition __init__ (root : string → option Image) (annFile : COCO.dataset A)
    (transform : option (Transform A Image)) (remove_invalid_data show : bool) : result t :=
  let coco := COCO.createIndex annFile in
  let self_ids := CocoDetection.ids coco in
  self_ids ← (if remove_invalid_data then remove_invalid coco self_ids [] else Ok self_ids);
  Ok {| root := root; coco := coco; ids := self_ids; transform := transform; show := show |}.

Definition _load_target (self : t) (id : Z) : result (list (COCO.annotation A)) :=
  COCO.loadAnns (coco self) (COCO.getAnnIds (coco self) id).

Definition __getitem__ (self : t) (index : Z) : result (item A Image F32) :=
  getitem FloatTensor (ids self) (root self) (coco self) (transform self) (show self)
    (_load_target self) index.

Definition __len__ (self : t) : Z := Z.of_nat (length (ids self)).
End cls.
Arguments t : clear implicits.
End myCocoDetection.

(** ** class myCocolimit(CocoDetection) *)

Module myCocolimit.
Section cls.
Context {A : Type} `{Number A} {Image F32 : Type} (FloatTensor : A → F32).

Record t := {
  root : string → option Image;
  coco : COCO.t A;
  class_list : list string;
  catIds : list Z;
  ids : list Z;
  transform : option (Transform A Image);
  show : bool;
}.

(** [for id in self.catIds: self.ids.extend(self.coco.getImgIds(catIds=id))] *)
Fixpoint extend_ids (coco : COCO.t A) (catIds self_ids : list Z) : list Z :=
  match catIds with
  | [] => self_ids
  | id :: catIds' => extend_ids coco catIds' (self_ids ++ COCO.getImgIds coco id)
  end.

Definition __init__ (root : string → option Image) (annFile : COCO.dataset A)
    (transform : option (Transform A Image)) (class_list : list string)
    (remove_invalid_data show : bool) : result t :=
  let coco := COCO.createIndex annFile in
  let catIds := COCO.getCatIds coco class_list in
  let self_ids := extend_ids coco catIds [] in
  self_ids ← (if remove_invalid_data then remove_invalid coco self_ids [] else Ok self_ids);
  Ok {| root := root; coco := coco; class_list := class_list; catIds := catIds;
        ids := self_ids; transform := transform; show := show |}.

Definition _load_target (self : t) (id : Z) : result (list (COCO.annotation A)) :=
  original ← COCO.loadAnns (coco self) (COCO.getAnnIds (coco self) id);
  let new := filter (λ ann, COCO.category_id ann ∈ catIds self) original in
  Ok new.

Definition __getitem__ (self : t) (index : Z) : result (item A Image F32) :=
  getitem FloatTensor (ids self) (root self) (coco self) (transform self) (show self)
    (_load_target self) index.

Definition __len__ (self : t) : Z := Z.of_nat (length (ids self)).
End cls.
Arguments t : clear implicits.
End myCocolimit.

(** ** Vocabulary of the statements *)

Section vocabulary.
Context {A : Type} `{Number A} {Image F32 : Type}.

(** The annotations of image [i], in the order of the annotation file. *)
Definition anns_of_image (d : COCO.dataset A) (i : Z) : list (COCO.annotation A) :=
  filter (λ a, COCO.image_id a = i) (COCO.annotations d).

(** What a constructor loads for [img_id] and hands to [is_valid_data]. *)
Definition checked_view (coco : COCO.t A) (img_id : Z) : result (list (COCO.annotation A)) :=
  COCO.loadAnns coco (COCO.getAnnIds coco img_id).

(** The test of the constructors' loop, as a function of the image id. *)
Definition valid_image (coco : COCO.t A) (img_id : Z) : bool :=
  match checked_view coco img_id with
  | Ok anno => is_valid_data anno
  | Raise _ => false
  end.

(** The index list a constructor ends with. *)
Definition final_ids (coco : COCO.t A) (remove_invalid_data : bool) (pre : list Z) : list Z :=
  if remove_invalid_data then filter (λ i, valid_image coco i = true) pre else pre.

(** A box is [x, y, width, height]. *)
Definition four_numbers (obj : COCO.annotation A) : Prop :=
  length (COCO.bbox obj) = 4%nat.

(** The width (third component) or the height (fourth component) is [<= 1]. *)
Definition degenerate (obj : COCO.annotation A) : Prop :=
  ∃ o, (COCO.bbox obj !! 2%nat = Some o ∨ COCO.bbox obj !! 3%nat = Some o)
       ∧ num_leb o num_one = true.

(** [x, y, x + w, y + h] of a box that has its four numbers. *)
Definition corner_box (b : list A) : list A :=
  match b with
  | x :: y :: w :: h :: _ => [x; y; num_add x w; num_add y h]
  | _ => []
  end.

Definition item_labels (it : item A Image F32) : list Z :=
  match it with
  | Plain _ _ labels => labels
  | Sample _ _ targets => labels targets
  end.

Definition item_box_count (it : item A Image F32) : nat :=
  match it with
  | Plain _ bboxes _ => length bboxes
  | Sample _ _ targets => length (boxes targets)
  end.

(** The transform that [__getitem__] is going to apply, if any, returns four
    elements for each box of [target]. *)
Definition keeps_count (transform : option (Transform A Image)) (show : bool)
    (target : list (COCO.annotation A)) : Prop :=
  show = false →
  ∀ tf flat, transform = Some tf →
    on_array tf ((λ obj, corner_box (COCO.bbox obj)) <$> target) = Ok flat →
    length flat = (4 * length target)%nat.

(** Every annotation belongs to an image of the file. *)
Definition anns_have_images (d : COCO.dataset A) : Prop :=
  ∀ a, a ∈ COCO.annotations d → COCO.image_id a ∈ COCO.img_id <$> COCO.images d.
End vocabulary.

(** ** Sample stores *)

Module Samples.
Import COCO.

Definition categories3 : list category :=
  [ {| cat_id := 1; name := "person" |};
    {| cat_id := 17; name := "cat" |};
    {| cat_id := 18; name := "dog" |} ].

(** Every file of the directory decodes; a picture is named by its file. *)
Definition root : string → option string := λ file, Some file.

Definition person1 : annotation Z :=
  {| ann_id := 100; image_id := 1; category_id := 1; bbox := [10; 10; 50; 80] |}.
Definition dog1 : annotation Z :=
  {| ann_id := 101; image_id := 1; category_id := 18; bbox := [5; 5; 20; 20] |}.
Definition person2 : annotation Z :=
  {| ann_id := 102; image_id := 2; category_id := 1; bbox := [30; 30; 40; 40] |}.
Definition speck2 : annotation Z :=
  {| ann_id := 103; image_id := 2; category_id := 17; bbox := [0; 0; 1; 1] |}.

(** One image with a person and a dog. *)
Definition one_image : dataset Z :=
  {| images := [ {| img_id := 1; file_name := "000001.jpg" |} ];
     annotations := [person1; dog1];
     categories := categories3 |}.

(** A second image with a person and a one-pixel cat. *)
Definition two_images : dataset Z :=
  {| images := [ {| img_id := 1; file_name := "000001.jpg" |};
                 {| img_id := 2; file_name := "000002.jpg" |} ];
     annotations := [person1; dog1; person2; speck2];
     categories := categories3 |}.

(** One image whose box has the two-decimal coordinates of the
    annotation files. *)
Definition person_f : annotation float :=
  {| ann_id := 200; image_id := 1; category_id := 1;
     bbox := [473.07; 395.93; 38.65; 28.67]%float |}.
Definition float_image : dataset float :=
  {| images := [ {| img_id := 1; file_name := "000001.jpg" |} ];
     annotations := [person_f];
     categories := categories3 |}.

(** Three images: a person in the first, nothing in the second, a dog
    half a pixel wide in the third. *)
Definition three_images : dataset float :=
  {| images := [ {| img_id := 1; file_name := "000001.jpg" |};
                 {| img_id := 2; file_name := "000002.jpg" |};
                 {| img_id := 3; file_name := "000003.jpg" |} ];
     annotations :=
       [ {| ann_id := 300; image_id := 1; category_id := 1;
            bbox := [10; 10; 50; 80]%float |};
         {| ann_id := 301; image_id := 3; category_id := 18;
            bbox := [0; 0; 0.5; 5]%float |} ];
     categories := categories3 |}.

(** A transform that leaves pictures alone and returns every box twice. *)
Definition twice : Transform Z string :=
  {| on_image := λ image, Ok image;
     on_array := λ bboxes, Ok (concat bboxes ++ concat bboxes) |}.

(** A transform that leaves pictures alone and keeps the first box only,
    as a crop that cuts the others off. *)
Definition first_only : Transform Z string :=
  {| on_image := λ image, Ok image;
     on_array := λ bboxes, Ok (concat (take 1 bboxes)) |}.

(** The element-wise transform: every box is returned as it is. *)
Definition elementwise : Transform Z string :=
  {| on_image := λ image, Ok image;
     on_array := λ bboxes, Ok (concat bboxes) |}.

(** The cast to [FloatTensor] on integers small enough to be kept. *)
Definition keep : Z → Z := λ z, z.
End Samples.

(** ** Further exceptions *)

Definition ValueError : exn := OtherError "ValueError".
Definition AttributeError : exn := OtherError "AttributeError".
Definition ZeroDivisionError : exn := OtherError "ZeroDivisionError".
Definition UnboundLocalError : exn := OtherError "UnboundLocalError".

(** ** collate_fn

    [tuple(zip( *batch))]: a record of the batch is a tuple, here the list of
    its components. [zip] stops with the shortest record, and yields nothing
    for an empty batch. *)

Section collate.
Context {X : Type}.

(** At most [n] columns of [batch], while every record has a next component. *)
Fixpoint zip_columns (n : nat) (batch : list (list X)) : list (list X) :=
  match n with
  | O => []
  | S n' =>
      match mapM head batch with
      | Some column => column :: zip_columns n' (tail <$> batch)
      | None => []
      end
  end.

Definition collate_fn (batch : list (list X)) : list (list X) :=
  match batch with
  | [] => []
  | record :: _ => zip_columns (length record) batch
  end.
End collate.

(** ** coco_show

    What the function draws is returned: one panel for each drawn record,
    with its rectangles, its captions, the picture shown and the id of the
    title. *)

Definition CLASSES : list string :=
  [ "__background__"; "person"; "bicycle"; "car"; "motorcycle"; "airplane";
    "bus"; "train"; "truck"; "boat"; "traffic light"; "fire hydrant";
    "N/A"; "stop sign"; "parking meter"; "bench"; "bird"; "cat"; "dog";
    "horse"; "sheep"; "cow"; "elephant"; "bear"; "zebra"; "giraffe"; "N/A";
    "backpack"; "umbrella"; "N/A"; "N/A"; "handbag"; "tie"; "suitcase";
    "frisbee"; "skis"; "snowboard"; "sports ball"; "kite"; "baseball bat";
    "baseball glove"; "skateboard"; "surfboard"; "tennis racket"; "bottle";
    "N/A"; "wine glass"; "cup"; "fork"; "knife"; "spoon"; "bowl"; "banana";
    "apple"; "sandwich"; "orange"; "broccoli"; "carrot"; "hot dog";
    "pizza"; "donut"; "cake"; "chair"; "couch"; "potted plant"; "bed";
    "N/A"; "dining table"; "N/A"; "N/A"; "toilet"; "N/A"; "tv"; "laptop";
    "mouse"; "remote"; "keyboard"; "cell phone"; "microwave"; "oven";
    "toaster"; "sink"; "refrigerator"; "N/A"; "book"; "clock"; "vase";
    "scissors"; "teddy bear"; "hair drier"; "toothbrush" ].

Section show.
Context {A Image F32 : Type}.
(** [a - b] on two elements of a box tensor. *)
Context (sub32 : F32 → F32 → F32).
(** [image.permute(1, 2, 0)]. *)
Context (permute : Image → result Image).

Record panel := {
  rectangles : list (F32 * F32 * F32 * F32);   (* (x, y), width, height *)
  captions : list (F32 * F32 * string);        (* x, y, text *)
  shown : Image;                               (* imshow *)
  title : Z;                                   (* 'Image ID :' *)
}.

(** [for box, label in zip(boxes, labels): ...] *)
Fixpoint draw_boxes (boxes : list (list F32)) (labels : list Z)
    (rects : list (F32 * F32 * F32 * F32)) (texts : list (F32 * F32 * string))
  : result (list (F32 * F32 * F32 * F32) * list (F32 * F32 * string)) :=
  match boxes, labels with
  | box :: boxes', label :: labels' =>
      x ← py_index box 0;
      y ← py_index box 1;
      width ← (b2 ← py_index box 2; b0 ← py_index box 0; Ok (sub32 b2 b0));
      height ← (b3 ← py_index box 3; b1 ← py_index box 1; Ok (sub32 b3 b1));
      let rect := (x, y, width, height) in
      tx ← py_index box 0;
      ty ← py_index box 1;
      name ← py_index CLASSES label;
      draw_boxes boxes' labels' (rects ++ [rect]) (texts ++ [(tx, ty, name)])
  | _, _ => Ok (rects, texts)
  end.

(** The body of [for i, num in enumerate(nums)]. The tuple that
    [__getitem__] returns is unpacked into [image_id, image, target]; of an
    untransformed tuple [(image, bboxes, labels)] the second component is a
    Python list, which has no [permute]. *)
Definition show_record (record : item A Image F32) : result panel :=
  match record with
  | Plain _ _ _ => Raise AttributeError
  | Sample image_id image target =>
      image ← permute image;
      '(rects, texts) ← draw_boxes (boxes target) (labels target) [] [];
      Ok {| rectangles := rects; captions := texts; shown := image; title := image_id |}
  end.

Fixpoint show_records (getitem : Z → result (item A Image F32)) (nums : list Z)
    (panels : list panel) : result (list panel) :=
  match nums with
  | [] => Ok panels
  | num :: nums' =>
      record ← getitem num;
      p ← show_record record;
      show_records getitem nums' (panels ++ [p])
  end.

(** [random.sample(range(0, n), k)]: [ValueError] unless [0 <= k <= n];
    otherwise what the generator [rng] picks. *)
Definition sample (rng : Z → Z → list Z) (n k : Z) : result (list Z) :=
  if decide (0 ≤ k ≤ n) then Ok (rng n k) else Raise ValueError.

(** [plt.subplots( *shape)]: the grid needs a positive number of rows and of
    columns. *)
Definition subplots (shape : Z * Z) : result Z :=
  if decide (0 < shape.1 ∧ 0 < shape.2) then Ok (shape.1 * shape.2)
  else Raise ValueError.

(** [coco_show(dataset, shape)], over [len(dataset)] and
    [dataset.__getitem__]. The grid has a cell for each number drawn, so
    that [axes[i]] is always there. *)
Definition coco_show (len : Z) (getitem : Z → result (item A Image F32))
    (shape : Z * Z) (rng : Z → Z → list Z) : result (list panel) :=
  let size := shape.1 * shape.2 in
  nums ← sample rng len size;
  _ ← subplots shape;
  show_records getitem nums [].
End show.
Arguments panel : clear implicits.

(** ** The training scripts

    [train], [test] and the epoch loop of [main] are the same in
    [classification/train.py] and in [classification/VGG/train.py]. What a
    pass over the data loader observes is given: for each batch the
    number of its images, the value of the loss and the number of correct
    predictions. *)

Section training.
Context {R M : Type}.
(** [sum(iter_loss)], [x / n] for a float and [c / n] for two integers
    ([n <> 0]), and [acc > best_acc]. *)
Context (fsum : list R → R) (fdiv : R → Z → R) (ratio : Z → Z → R)
  (gtb : R → R → bool) (zero : R).

Record batch := {
  batch_size : Z;        (* images.shape[0] *)
  batch_loss : R;        (* loss.item() *)
  batch_corrects : Z;    (* sum(outputs.argmax(axis=1) == labels).item() *)
}.

(** The [print] of the statistics divides by [data_size]. *)
Definition print_stats (data_size : Z) : result unit :=
  if decide (data_size = 0) then Raise ZeroDivisionError else Ok ().

(** [for i, (images, labels) in enumerate(dataloader)] of [train]; [n] is
    [len(dataloader)]. *)
Fixpoint train_loop (n : Z) (dataloader : list batch) (i : Z)
    (iter_loss : list R) (corrects data_size : Z) : result (list R * Z * Z) :=
  match dataloader with
  | [] => Ok (iter_loss, corrects, data_size)
  | b :: rest =>
      let data_size := data_size + batch_size b in
      let iter_loss := iter_loss ++ [batch_loss b] in
      let corrects := corrects + batch_corrects b in
      _ ← (if decide ((i + 1) `mod` 40 = 0 ∨ i + 1 = n)
           then print_stats data_size else Ok ());
      train_loop n rest (i + 1) iter_loss corrects data_size
  end.

Definition train (dataloader : list batch) : result (list R) :=
  '(iter_loss, corrects, data_size) ←
    train_loop (Z.of_nat (length dataloader)) dataloader 0 [] 0 0;
  if decide (data_size = 0) then Raise ZeroDivisionError
  else Ok [fdiv (fsum iter_loss) data_size; ratio corrects data_size].

(** The loop of [test] prints nothing; [i] is the index of the last batch,
    if there was one. *)
Fixpoint test_loop (dataloader : list batch) (i : option Z)
    (next : Z) (iter_loss : list R) (corrects data_size : Z)
  : option Z * list R * Z * Z :=
  match dataloader with
  | [] => (i, iter_loss, corrects, data_size)
  | b :: rest =>
      test_loop rest (Some next) (next + 1) (iter_loss ++ [batch_loss b])
        (corrects + batch_corrects b) (data_size + batch_size b)
  end.

Definition test (dataloader : list batch) : result (list R) :=
  let '(i, iter_loss, corrects, data_size) := test_loop dataloader None 0 [] 0 0 in
  _ ← of_option UnboundLocalError i;
  _ ← print_stats data_size;
  if decide (data_size = 0) then Raise ZeroDivisionError
  else Ok [fdiv (fsum iter_loss) data_size; ratio corrects data_size].

(** [l[1::2]] *)
Fixpoint odd_items {X} (l : list X) : list X :=
  match l with
  | _ :: x :: l' => x :: odd_items l'
  | _ => []
  end.

(** The dictionary handed to [torch.save]. *)
Record checkpoint := {
  ck_model : M;                  (* 'model' *)
  ck_epoch : Z;                  (* 'epoch' *)
  ck_acc : R;                    (* 'acc' *)
  ck_train_result : list R;      (* 'train_result' *)
  ck_test_result : list R;       (* 'test_result' *)
}.

(** What the loop writes: every [torch.save] goes to the one file
    [<result_path>/<model>_ckpt.pth]. *)
Inductive event :=
  | TorchSave (state : checkpoint)
  | SaveResult (train_result test_result : list R).

(** The variables of [main] that the loop reads and writes. *)
Record run := {
  train_result : list R;
  test_result : list R;
  best_acc : R;
  best : option R;
  events : list event;
}.

(** The branch [if opt.resume: ... else: ...]: the epoch to start from and
    the first state. *)
Definition resume (checkpoint : option checkpoint) : Z * run :=
  match checkpoint with
  | Some ck =>
      (ck_epoch ck,
       {| train_result := ck_train_result ck; test_result := ck_test_result ck;
          best_acc := ck_acc ck; best := None; events := [] |})
  | None =>
      (0, {| train_result := []; test_result := []; best_acc := zero;
             best := None; events := [] |})
  end.

(** The body of [for e in range(start_epoch, start_epoch + opt.epoch)];
    [state_dict e] is [model.state_dict()] after the training of epoch [e],
    [train_loader e] and [test_loader e] what the two passes of that epoch
    observe. *)
Definition main_epoch (state_dict : Z → M) (train_loader test_loader : Z → list batch)
    (save_result : bool) (e : Z) (s : run) : result run :=
  tr ← train (train_loader e);
  let train_result := train_result s ++ tr in
  te ← test (test_loader e);
  let test_result := test_result s ++ te in
  acc ← py_index (odd_items test_result) (-1);
  let saved := gtb acc (best_acc s) in
  let state := {| ck_model := state_dict e; ck_epoch := e + 1; ck_acc := acc;
                  ck_train_result := train_result; ck_test_result := test_result |} in
  let events := if saved then events s ++ [TorchSave state] else events s in
  let best := if saved then Some acc else best s in
  let events := if save_result then events ++ [SaveResult train_result test_result]
                else events in
  Ok {| train_result := train_result; test_result := test_result;
        best_acc := best_acc s; best := best; events := events |}.

Fixpoint main_epochs (state_dict : Z → M) (train_loader test_loader : Z → list batch)
    (save_result : bool) (epochs : list Z) (s : run) : result run :=
  match epochs with
  | [] => Ok s
  | e :: epochs' =>
      s' ← main_epoch state_dict train_loader test_loader save_result e s;
      main_epochs state_dict train_loader test_loader save_result epochs' s'
  end.

Definition main_loop (state_dict : Z → M) (train_loader test_loader : Z → list batch)
    (save_result : bool) (start_epoch epoch : Z) (s : run) : result run :=
  main_epochs state_dict train_loader test_loader save_result
    (seqZ start_epoch epoch) s.
End training.
Arguments batch : clear implicits.
Arguments checkpoint : clear implicits.
Arguments event : clear implicits.
Arguments run : clear implicits.

(** ** Vocabulary of the further statements *)

(** The epochs at which a checkpoint is written. *)
Definition saved_epochs {R M} (evs : list (event R M)) : list Z :=
  omap (λ ev, match ev with
              | TorchSave state => Some (ck_epoch state)
              | SaveResult _ _ => None
              end) evs.

(** The sum of [f] over the batches of a pass. *)
Definition total {R} (f : batch R → Z) (dataloader : list (batch R)) : Z :=
  foldr (λ b acc, f b + acc) 0 dataloader.

(** The accuracy that the test pass of epoch [e] returns exceeds [threshold]. *)
Definition epoch_beats {R} (fsum : list R → R) (fdiv : R → Z → R) (ratio : Z → Z → R)
    (gtb : R → R → bool) (test_loader : Z → list (batch R)) (threshold : R) (e : Z)
  : bool :=
  match test fsum fdiv ratio (test_loader e) with
  | Ok [_; acc] => gtb acc threshold
  | _ => false
  end.


(** A directory without files. *)
Definition no_files : string → option string := λ _, None.

(** * Properties *)

(** ** Fallible computations *)

Lemma bind_Ok {X Y} (f : X → result Y) (m : result X) (y : Y) :
  m ≫= f = Ok y ↔ ∃ x, m = Ok x ∧ f x = Ok y.
Proof.
  destruct m as [x|e]; simpl; split.
  - intros Hf. exists x. done.
  - intros (x' & [= <-] & Hf). done.
  - discriminate.
  - intros (x' & [=] & _).
Qed.

Lemma mapM_Ok_fmap {X Y} (f : X → result Y) (g : X → Y) (l : list X) :
  Forall (λ x, f x = Ok (g x)) l → mapM f l = Ok (g <$> l).
Proof.
  induction 1 as [|x l Hx _ IH]; simpl; [done|].
  rewrite Hx. simpl. rewrite IH. done.
Qed.

Lemma mapM_Ok_keys {K Y} (f : K → result Y) (key : Y → K) (l : list Y) :
  Forall (λ y, f (key y) = Ok y) l → mapM f (key <$> l) = Ok l.
Proof.
  induction 1 as [|y l Hy _ IH]; [done|].
  rewrite fmap_cons. cbn [mapM]. rewrite Hy, IH. done.
Qed.

(** ** The annotation store *)

Section store_facts.
Context {A : Type}.
Implicit Types (d : COCO.dataset A) (a : COCO.annotation A).

Lemma lookup_foldl_append_at {X V} (key : X → Z) (val : X → V)
    (l : list X) (m : gmap Z (list V)) (k : Z) :
  default [] (foldl (λ m x, COCO.append_at (key x) (val x) m) m l !! k)
  = default [] (m !! k) ++ (val <$> filter (λ x, key x = k) l).
Proof.
  revert m. induction l as [|x l IH]; intros m; simpl.
  - by rewrite app_nil_r.
  - rewrite IH. unfold COCO.append_at. rewrite filter_cons.
    destruct (decide (key x = k)) as [->|Hne].
    + rewrite lookup_insert_eq. simpl. by rewrite <- app_assoc.
    + by rewrite lookup_insert_ne.
Qed.

Lemma imgToAnns_createIndex d i :
  default [] (COCO.imgToAnns (COCO.createIndex d) !! i) = anns_of_image d i.
Proof.
  simpl. rewrite (lookup_foldl_append_at COCO.image_id (λ a, a)).
  rewrite lookup_empty. simpl. by rewrite list_fmap_id.
Qed.

Lemma catToImgs_createIndex d c :
  default [] (COCO.catToImgs (COCO.createIndex d) !! c)
  = COCO.image_id <$> filter (λ a, COCO.category_id a = c) (COCO.annotations d).
Proof.
  simpl. rewrite (lookup_foldl_append_at COCO.category_id COCO.image_id).
  by rewrite lookup_empty.
Qed.

Lemma lookup_foldl_insert_notin {X V} (key : X → Z) (val : X → V)
    (l : list X) (m : gmap Z V) (k : Z) :
  k ∉ key <$> l → foldl (λ m x, <[key x := val x]> m) m l !! k = m !! k.
Proof.
  revert m. induction l as [|x l IH]; intros m Hk; simpl; [done|].
  rewrite fmap_cons, not_elem_of_cons in Hk. destruct Hk as [Hne Hk].
  rewrite IH by done. by rewrite lookup_insert_ne.
Qed.

Lemma lookup_foldl_insert_is_Some {X V} (key : X → Z) (val : X → V)
    (l : list X) (m : gmap Z V) (k : Z) :
  is_Some (foldl (λ m x, <[key x := val x]> m) m l !! k)
  ↔ is_Some (m !! k) ∨ k ∈ key <$> l.
Proof.
  revert m. induction l as [|x l IH]; intros m; simpl.
  - rewrite elem_of_nil. tauto.
  - rewrite IH, elem_of_cons, lookup_insert_is_Some.
    destruct (decide (key x = k)) as [Heq|Hne].
    + split; intros _; [right; left; done | left; left; done].
    + split.
      * intros [[Heq|[_ Hs]]|Hin]; [done | by left | by right; right].
      * intros [Hs|[Heq|Hin]]; [left; right; done | congruence | by right].
Qed.

Lemma lookup_foldl_insert_NoDup {X V} (key : X → Z) (val : X → V)
    (l : list X) (m : gmap Z V) (x : X) :
  NoDup (key <$> l) → x ∈ l →
  foldl (λ m x, <[key x := val x]> m) m l !! key x = Some (val x).
Proof.
  revert m. induction l as [|y l IH]; intros m Hnd Hx; simpl.
  - by apply elem_of_nil in Hx.
  - rewrite fmap_cons, NoDup_cons in Hnd. destruct Hnd as [Hy Hnd].
    apply elem_of_cons in Hx as [->|Hx].
    + rewrite lookup_foldl_insert_notin by done. by rewrite lookup_insert_eq.
    + by apply IH.
Qed.

(** Every image id has loadable annotations: the ids [getAnnIds] returns
    are keys of [anns]. *)
Lemma loadAnns_getAnnIds_total d i :
  ∃ anno, COCO.loadAnns (COCO.createIndex d) (COCO.getAnnIds (COCO.createIndex d) i) = Ok anno
          ∧ length anno = length (anns_of_image d i).
Proof.
  unfold COCO.loadAnns, COCO.getAnnIds. rewrite imgToAnns_createIndex.
  set (c := COCO.createIndex d).
  set (g := λ k : Z, match COCO.anns c !! k with Some a => a
                      | None => {| COCO.ann_id := k; COCO.image_id := 0;
                                   COCO.category_id := 0; COCO.bbox := [] |} end).
  exists (g <$> (COCO.ann_id <$> anns_of_image d i)). split.
  - apply mapM_Ok_fmap, Forall_forall. intros k Hk.
    assert (is_Some (COCO.anns c !! k)) as [a Ha].
    { simpl. apply (lookup_foldl_insert_is_Some COCO.ann_id (λ a, a)). right.
      apply list_elem_of_fmap in Hk as (a & -> & Ha).
      apply list_elem_of_fmap. exists a. split; [done|].
      unfold anns_of_image in Ha. by apply list_elem_of_filter in Ha as [_ ?]. }
    unfold g. by rewrite Ha.
  - by rewrite !length_fmap.
Qed.

(** With distinct annotation ids, what is loaded for an image is its
    list of annotations. *)
Lemma loadAnns_getAnnIds_NoDup d i :
  NoDup (COCO.ann_id <$> COCO.annotations d) →
  COCO.loadAnns (COCO.createIndex d) (COCO.getAnnIds (COCO.createIndex d) i)
  = Ok (anns_of_image d i).
Proof.
  intros Hnd. unfold COCO.loadAnns, COCO.getAnnIds. rewrite imgToAnns_createIndex.
  apply mapM_Ok_keys, Forall_forall. intros a Ha. simpl.
  rewrite (lookup_foldl_insert_NoDup COCO.ann_id (λ a, a)); [done|done|].
  unfold anns_of_image in Ha. by apply list_elem_of_filter in Ha as [_ ?].
Qed.

(** [getImgIds(catIds=c)]: the images with an annotation of category [c],
    each once. *)
Lemma elem_of_getImgIds d c i :
  i ∈ COCO.getImgIds (COCO.createIndex d) c
  ↔ ∃ a, a ∈ COCO.annotations d ∧ COCO.category_id a = c ∧ COCO.image_id a = i.
Proof.
  unfold COCO.getImgIds. rewrite catToImgs_createIndex.
  rewrite elem_of_elements, elem_of_list_to_set, list_elem_of_fmap.
  split.
  - intros (a & -> & Ha). apply list_elem_of_filter in Ha as [Hc Ha]. eauto.
  - intros (a & Ha & Hc & <-). exists a. split; [done|].
    by apply list_elem_of_filter.
Qed.

Lemma NoDup_getImgIds (c : COCO.t A) (id : Z) : NoDup (COCO.getImgIds c id).
Proof. apply NoDup_elements. Qed.

(** The ids of the base class: the image ids of the file, sorted. *)
Lemma elem_of_CocoDetection_ids d i :
  i ∈ CocoDetection.ids (COCO.createIndex d) ↔ i ∈ COCO.img_id <$> COCO.images d.
Proof.
  unfold CocoDetection.ids. rewrite merge_sort_Permutation.
  rewrite elem_of_elements, elem_of_dom. simpl.
  rewrite (lookup_foldl_insert_is_Some COCO.img_id (λ x, x)).
  rewrite lookup_empty. split; [intros [[? [=]]|?]; done | by right].
Qed.
End store_facts.

(** ** The shared methods *)

Lemma list_ind4 {X} (P : list X → Prop) :
  P [] → (∀ a, P [a]) → (∀ a b, P [a; b]) → (∀ a b c, P [a; b; c]) →
  (∀ a b c d l, P l → P (a :: b :: c :: d :: l)) → ∀ l, P l.
Proof.
  intros H0 H1 H2 H3 H4. fix IH 1.
  intros [|a [|b [|c [|d l]]]];
    [apply H0 | apply H1 | apply H2 | apply H3 | apply H4, IH].
Qed.

Lemma py_index_nonneg {X} (l : list X) (i : Z) :
  0 ≤ i → py_index l i = of_option IndexError (l !! Z.to_nat i).
Proof.
  intros Hi. unfold py_index. cbv zeta.
  destruct (decide (i < 0)) as [?|_]; [lia|].
  destruct (decide (0 ≤ i < Z.of_nat (length l))) as [?|Hge]; [done|].
  rewrite (lookup_ge_None_2 l) by lia. done.
Qed.

Section shared_facts.
Context {A : Type} `{Number A} {Image F32 : Type} (FloatTensor : A → F32).
Implicit Types (obj : COCO.annotation A) (anno target : list (COCO.annotation A)).

Lemma small_side_true (os : list A) :
  small_side os = true ↔ ∃ o, o ∈ os ∧ num_leb o num_one = true.
Proof.
  induction os as [|o os IH]; simpl.
  - split; [done|]. intros (o & Ho & _). by apply elem_of_nil in Ho.
  - destruct (num_leb o num_one) eqn:Ho.
    + split; [|done]. intros _. exists o. split; [left|done].
    + rewrite IH. split.
      * intros (o' & Ho' & Hle). exists o'. split; [by right|done].
      * intros (o' & Ho' & Hle). apply elem_of_cons in Ho' as [->|Ho'].
        -- congruence.
        -- eauto.
Qed.

Lemma all_boxes_ok_true anno :
  all_boxes_ok anno = true
  ↔ Forall (λ obj, small_side (drop 2 (COCO.bbox obj)) = false) anno.
Proof.
  induction anno as [|obj anno IH]; simpl.
  - split; [constructor|done].
  - rewrite Forall_cons. destruct (small_side _).
    + split; [done|]. by intros [? _].
    + rewrite IH. tauto.
Qed.

Lemma degenerate_small_side obj :
  degenerate obj → small_side (drop 2 (COCO.bbox obj)) = true.
Proof.
  intros (o & Ho & Hle). apply small_side_true. exists o. split; [|done].
  destruct Ho as [Ho|Ho].
  - apply (list_elem_of_lookup_2 _ 0%nat). by rewrite lookup_drop.
  - apply (list_elem_of_lookup_2 _ 1%nat). by rewrite lookup_drop.
Qed.

Lemma small_side_degenerate obj :
  four_numbers obj → small_side (drop 2 (COCO.bbox obj)) = true → degenerate obj.
Proof.
  unfold four_numbers, degenerate.
  destruct (COCO.bbox obj) as [|x [|y [|w [|h [|? ?]]]]]; try discriminate.
  intros _. simpl.
  destruct (num_leb w num_one) eqn:Hw; [intros _; exists w; auto|].
  destruct (num_leb h num_one) eqn:Hh; [intros _; exists h; auto|done].
Qed.

Lemma is_valid_data_true anno :
  is_valid_data anno = true
  ↔ anno ≠ [] ∧ Forall (λ obj, small_side (drop 2 (COCO.bbox obj)) = false) anno.
Proof.
  unfold is_valid_data. rewrite <- all_boxes_ok_true.
  destruct anno as [|obj anno]; simpl; [split; [done|by intros [? _]]|].
  split; [by intros ->|by intros [_ ->]].
Qed.

(** The validation loop keeps, in order, the ids that pass the test. *)
Lemma remove_invalid_filter (coco : COCO.t A) (self_ids ids : list Z) :
  (∀ i, ∃ anno, checked_view coco i = Ok anno) →
  remove_invalid coco self_ids ids
  = Ok (ids ++ filter (λ i, valid_image coco i = true) self_ids).
Proof.
  intros Htot. revert ids.
  induction self_ids as [|i self_ids IH]; intros ids; simpl.
  - by rewrite app_nil_r.
  - destruct (Htot i) as [anno Hanno]. rewrite filter_cons.
    unfold valid_image. unfold checked_view in Hanno |- *. rewrite Hanno. simpl.
    rewrite IH. destruct (is_valid_data anno).
    + rewrite decide_True by done. by rewrite <- app_assoc.
    + rewrite decide_False by done. done.
Qed.

Lemma corners_Ok (b r : list A) :
  corners b = Ok r ↔ (4 ≤ length b)%nat ∧ r = corner_box b.
Proof.
  unfold corners. rewrite !py_index_nonneg by lia.
  destruct b as [|x [|y [|w [|h b]]]]; simpl;
    try (split; [discriminate|intros [? _]; lia]).
  split; [intros [= <-]; split; [lia|done] | by intros [_ ->]].
Qed.

(** The loop appends, for each annotation in turn, its corner box and
    its category id. *)
Lemma box_loop_Ok target (bboxes bboxes' : list (list A)) (labels labels' : list Z) :
  box_loop target bboxes labels = Ok (bboxes', labels')
  ↔ Forall (λ obj, 4 ≤ length (COCO.bbox obj))%nat target
    ∧ bboxes' = bboxes ++ ((λ obj, corner_box (COCO.bbox obj)) <$> target)
    ∧ labels' = labels ++ (COCO.category_id <$> target).
Proof.
  revert bboxes labels. induction target as [|obj target IH]; intros bboxes labels.
  - simpl. rewrite !app_nil_r. split.
    + intros [= <- <-]. by repeat split.
    + by intros (_ & -> & ->).
  - cbn [box_loop]. rewrite bind_Ok, !fmap_cons. split.
    + intros (bbox & Hc & Hloop). apply corners_Ok in Hc as [Hlen ->].
      apply IH in Hloop as (Hall & -> & ->). rewrite <- !app_assoc.
      repeat split; try done. by constructor.
    + intros (Hall & -> & ->). apply Forall_cons in Hall as [Hlen Hall].
      exists (corner_box (COCO.bbox obj)). split; [by apply corners_Ok|].
      apply IH. rewrite <- !app_assoc. done.
Qed.

Lemma reshape4_spec {X} (l : list X) :
  (∀ M : nat, length l = (4 * M)%nat →
     ∃ rows, reshape4 l = Ok rows ∧ length rows = M ∧ concat rows = l
             ∧ Forall (λ r, length r = 4%nat) rows)
  ∧ ((∀ M : nat, length l ≠ (4 * M)%nat) → reshape4 l = Raise RuntimeError).
Proof.
  induction l as [|a|a b|a b c|a b c d l [IHok IHno]] using list_ind4;
    try (split; [intros M HM; simpl in HM; lia | done]).
  - split; [|intros HM; by destruct (HM 0%nat)].
    intros M HM. exists []. simpl in *. repeat split; [lia|constructor].
  - split.
    + intros [|M] HM; simpl in HM; [lia|].
      destruct (IHok M) as (rows & Hrows & Hlen & Hcat & Hall); [lia|].
      exists ([a; b; c; d] :: rows). simpl. rewrite Hrows. simpl.
      repeat split; [by rewrite Hlen|by rewrite Hcat|by constructor].
    + intros HM. simpl. rewrite IHno; [done|].
      intros M HM'. apply (HM (S M)). simpl. lia.
Qed.
End shared_facts.

Section getitem_facts.
Context {A : Type} `{Number A} {Image F32 : Type} (FloatTensor : A → F32).
Implicit Types (target : list (COCO.annotation A)) (it : item A Image F32).

Lemma tensor_int64_Ok (l l' : list Z) :
  tensor_int64 l = Ok l' ↔ Forall (λ z, - 2 ^ 63 ≤ z < 2 ^ 63) l ∧ l' = l.
Proof.
  unfold tensor_int64. case_decide; split.
  - by intros [= <-].
  - by intros [_ ->].
  - discriminate.
  - by intros [? _].
Qed.

(** What [__getitem__] returns, step by step. *)
Lemma getitem_Ok (ids : list Z) (root : string → option Image) (coco : COCO.t A)
    (transform : option (Transform A Image)) (show : bool)
    (lt : Z → result (list (COCO.annotation A))) (index : Z) it :
  getitem FloatTensor ids root coco transform show lt index = Ok it
  ↔ ∃ idx image target,
      py_index ids index = Ok idx
      ∧ _load_image root coco idx = Ok image
      ∧ lt idx = Ok target
      ∧ Forall (λ obj, 4 ≤ length (COCO.bbox obj))%nat target
      ∧ let bboxes := (λ obj, corner_box (COCO.bbox obj)) <$> target in
        let labels := COCO.category_id <$> target in
        match show, transform with
        | false, Some tf =>
            ∃ image' flat rows,
              on_image tf image = Ok image'
              ∧ on_array tf bboxes = Ok flat
              ∧ reshape4 flat = Ok rows
              ∧ Forall (λ z, - 2 ^ 63 ≤ z < 2 ^ 63) labels
              ∧ it = Sample idx image'
                       {| boxes := map (map FloatTensor) rows; labels := labels |}
        | _, _ => it = Plain image bboxes labels
        end.
Proof.
  unfold getitem. split.
  - intros Hget.
    apply bind_Ok in Hget as (idx & Hidx & Hget).
    apply bind_Ok in Hget as (image & Himg & Hget).
    apply bind_Ok in Hget as (target & Htgt & Hget).
    apply bind_Ok in Hget as ([bboxes labels] & Hloop & Hget).
    apply box_loop_Ok in Hloop as (Hall & -> & ->). simpl in Hget.
    exists idx, image, target. repeat split; try done. cbv zeta.
    destruct show; [by injection Hget as <-|].
    destruct transform as [tf|]; [|by injection Hget as <-].
    apply bind_Ok in Hget as (image' & Him' & Hget).
    apply bind_Ok in Hget as (flat & Hflat & Hget).
    apply bind_Ok in Hget as (rows & Hrows & Hget).
    apply bind_Ok in Hget as (labels & Hlab & Hget).
    apply tensor_int64_Ok in Hlab as [Hrng ->].
    injection Hget as <-. by exists image', flat, rows.
  - intros (idx & image & target & Hidx & Himg & Htgt & Hall & Hit). cbv zeta in Hit.
    rewrite Hidx. simpl. rewrite Himg. simpl. rewrite Htgt. simpl.
    assert (box_loop target [] []
            = Ok ((λ obj, corner_box (COCO.bbox obj)) <$> target,
                  COCO.category_id <$> target)) as -> by by apply box_loop_Ok.
    simpl. destruct show; [by rewrite Hit|].
    destruct transform as [tf|]; [|by rewrite Hit].
    destruct Hit as (image' & flat & rows & Him' & Hflat & Hrows & Hrng & ->).
    rewrite Him'. simpl. rewrite Hflat. simpl. rewrite Hrows. simpl.
    rewrite (proj2 (tensor_int64_Ok _ _) (conj Hrng eq_refl)). done.
Qed.

(** Without a transform, or in [show] mode, a record is returned for every
    index in range whose picture can be read and whose annotations can be
    loaded with four numbers (or more) to a box. *)
Lemma getitem_returns (ids : list Z) (root : string → option Image) (coco : COCO.t A)
    (transform : option (Transform A Image)) (show : bool)
    (lt : Z → result (list (COCO.annotation A))) (index idx : Z) (image : Image) target :
  show = true ∨ transform = None →
  py_index ids index = Ok idx →
  _load_image root coco idx = Ok image →
  lt idx = Ok target →
  Forall (λ obj, 4 ≤ length (COCO.bbox obj))%nat target →
  getitem FloatTensor ids root coco transform show lt index
  = Ok (Plain image ((λ obj, corner_box (COCO.bbox obj)) <$> target)
          (COCO.category_id <$> target)).
Proof.
  intros Hmode Hidx Himg Htgt Hall. apply getitem_Ok.
  exists idx, image, target. repeat split; try done. cbv zeta.
  destruct Hmode as [->| ->]; [done|by destruct show].
Qed.
End getitem_facts.

(** ** The constructors *)

Section init_facts.
Context {A : Type} `{Number A} {Image : Type}.
Implicit Types (d : COCO.dataset A) (root : string → option Image)
  (tf : option (Transform A Image)).

Lemma checked_view_total d i :
  ∃ anno, checked_view (COCO.createIndex d) i = Ok anno.
Proof.
  destruct (loadAnns_getAnnIds_total d i) as (anno & Hanno & _). by exists anno.
Qed.

Lemma valid_image_true (coco : COCO.t A) i :
  valid_image coco i = true
  ↔ ∃ anno, checked_view coco i = Ok anno ∧ is_valid_data anno = true.
Proof.
  unfold valid_image. destruct (checked_view coco i) as [anno|e].
  - split; [by exists anno|by intros (? & [= <-] & ?)].
  - split; [done|by intros (? & [=] & _)].
Qed.

Lemma extend_ids_concat (coco : COCO.t A) (catIds self_ids : list Z) :
  myCocolimit.extend_ids coco catIds self_ids
  = self_ids ++ concat (COCO.getImgIds coco <$> catIds).
Proof.
  revert self_ids. induction catIds as [|id catIds IH]; intros self_ids; simpl.
  - by rewrite app_nil_r.
  - by rewrite IH, app_assoc.
Qed.

Lemma myCocoDetection_init root d tf (remove_invalid_data show : bool) :
  myCocoDetection.__init__ root d tf remove_invalid_data show
  = Ok {| myCocoDetection.root := root;
          myCocoDetection.coco := COCO.createIndex d;
          myCocoDetection.ids :=
            final_ids (COCO.createIndex d) remove_invalid_data
              (CocoDetection.ids (COCO.createIndex d));
          myCocoDetection.transform := tf;
          myCocoDetection.show := show |}.
Proof.
  unfold myCocoDetection.__init__, final_ids. cbv zeta.
  destruct remove_invalid_data; [|done].
  rewrite remove_invalid_filter by apply checked_view_total. done.
Qed.

Lemma myCocolimit_init root d tf (class_list : list string)
    (remove_invalid_data show : bool) :
  myCocolimit.__init__ root d tf class_list remove_invalid_data show
  = Ok {| myCocolimit.root := root;
          myCocolimit.coco := COCO.createIndex d;
          myCocolimit.class_list := class_list;
          myCocolimit.catIds := COCO.getCatIds (COCO.createIndex d) class_list;
          myCocolimit.ids :=
            final_ids (COCO.createIndex d) remove_invalid_data
              (concat (COCO.getImgIds (COCO.createIndex d)
                         <$> COCO.getCatIds (COCO.createIndex d) class_list));
          myCocolimit.transform := tf;
          myCocolimit.show := show |}.
Proof.
  unfold myCocolimit.__init__, final_ids. cbv zeta. rewrite extend_ids_concat.
  destruct remove_invalid_data; [|done].
  rewrite remove_invalid_filter by apply checked_view_total. done.
Qed.

Lemma final_ids_sublist (coco : COCO.t A) (b : bool) (pre : list Z) :
  final_ids coco b pre `sublist_of` pre.
Proof. destruct b; simpl; [apply sublist_filter|done]. Qed.

Lemma final_ids_valid (coco : COCO.t A) (pre : list Z) (i : Z) :
  i ∈ final_ids coco true pre → valid_image coco i = true.
Proof. simpl. by intros [? _]%list_elem_of_filter. Qed.

Lemma myCocolimit_load_target (self : myCocolimit.t A Image) (id : Z)
    (checked : list (COCO.annotation A)) :
  checked_view (myCocolimit.coco self) id = Ok checked →
  myCocolimit._load_target self id
  = Ok (filter (λ ann, COCO.category_id ann ∈ myCocolimit.catIds self) checked).
Proof. unfold checked_view, myCocolimit._load_target. by intros ->. Qed.
End init_facts.

(** ** A first run

    With validation on, of the three sample images only the first is kept,
    and its record has the box [[10, 10, 60, 90]] with the label of
    [person]. *)
Example three_images_scenario :
  ∃ self,
    myCocoDetection.__init__ Samples.root Samples.three_images None true false = Ok self
    ∧ myCocoDetection.ids self = [1]
    ∧ myCocoDetection.__getitem__ (λ o : float, o) self 0
      = Ok (Plain "000001.jpg" [[10; 10; 60; 90]%float] [1]).
Proof. eexists. split; [vm_compute; reflexivity|]. by vm_compute. Qed.

(** ** Validation at construction *)

(** C10. With validation on, the index list of either class is a
    subsequence of the list the constructor started from (ids are only
    removed: none is added, moved or repeated), and the annotations the
    constructor loaded for every id that is kept pass [is_valid_data]. *)
Theorem validated_ids_sublist_and_valid {A : Type} `{Number A} {Image : Type}
    (root : string → option Image) (annFile : COCO.dataset A)
    (transform : option (Transform A Image)) (show : bool) :
  (∃ self, myCocoDetection.__init__ root annFile transform true show = Ok self
     ∧ myCocoDetection.ids self `sublist_of` CocoDetection.ids (COCO.createIndex annFile)
     ∧ ∀ img_id, img_id ∈ myCocoDetection.ids self →
         ∃ anno, checked_view (myCocoDetection.coco self) img_id = Ok anno
                 ∧ is_valid_data anno = true)
  ∧ ∀ class_list : list string,
      ∃ self, myCocolimit.__init__ root annFile transform class_list true show = Ok self
        ∧ myCocolimit.ids self
            `sublist_of` myCocolimit.extend_ids (COCO.createIndex annFile)
                           (COCO.getCatIds (COCO.createIndex annFile) class_list) []
        ∧ ∀ img_id, img_id ∈ myCocolimit.ids self →
            ∃ anno, checked_view (myCocolimit.coco self) img_id = Ok anno
                    ∧ is_valid_data anno = true.
Proof.
  split; [|intros class_list]; eexists.
  - split; [apply myCocoDetection_init|]. cbn [myCocoDetection.ids myCocoDetection.coco].
    split; [apply final_ids_sublist|].
    intros img_id Hin. by apply final_ids_valid, valid_image_true in Hin.
  - split; [apply myCocolimit_init|]. cbn [myCocolimit.ids myCocolimit.coco].
    rewrite extend_ids_concat. split; [apply final_ids_sublist|].
    intros img_id Hin. by apply final_ids_valid, valid_image_true in Hin.
Qed.

(** ** The validity predicate *)

(** C2. [is_valid_data] is false on the empty sequence, false on every
    sequence holding an annotation whose width or height is [<= 1]
    (whatever the other annotations are), and true on every other sequence
    of four-number boxes. *)
Theorem is_valid_data_spec {A : Type} `{Number A} (anno : list (COCO.annotation A)) :
  (anno = [] → is_valid_data anno = false)
  ∧ (Exists degenerate anno → is_valid_data anno = false)
  ∧ (Forall four_numbers anno → anno ≠ [] → ¬ Exists degenerate anno →
     is_valid_data anno = true).
Proof.
  split; [by intros ->|]. split.
  - intros Hex. apply not_true_is_false. intros [_ Hall]%is_valid_data_true.
    apply Exists_exists in Hex as (obj & Hobj & Hdeg).
    rewrite Forall_forall in Hall. specialize (Hall obj Hobj).
    apply degenerate_small_side in Hdeg. congruence.
  - intros Hfour Hne Hdeg. apply is_valid_data_true. split; [done|].
    apply Forall_forall. intros obj Hobj. apply not_true_is_false. intros Hsmall.
    apply Hdeg, Exists_exists. exists obj. split; [done|].
    apply small_side_degenerate; [|done].
    rewrite Forall_forall in Hfour. by apply Hfour.
Qed.

Lemma is_valid_data_spec_witness :
  is_valid_data [Samples.person1; Samples.dog1] = true
  ∧ is_valid_data [Samples.person2; Samples.speck2] = false
  ∧ is_valid_data ([] : list (COCO.annotation Z)) = false.
Proof.
  split; [|split].
  - apply (proj2 (proj2 (is_valid_data_spec [Samples.person1; Samples.dog1]))).
    + by repeat constructor.
    + done.
    + intros Hex. apply Exists_exists in Hex as (obj & Hobj & o & Ho & Hle).
      repeat (apply elem_of_cons in Hobj as [->|Hobj]);
        [| |by apply elem_of_nil in Hobj];
        simpl in Ho; destruct Ho as [[= <-]|[= <-]]; discriminate.
  - apply (proj1 (proj2 (is_valid_data_spec [Samples.person2; Samples.speck2]))).
    apply Exists_cons_tl, Exists_cons_hd. exists 1. split; [by left|done].
  - apply (proj1 (is_valid_data_spec (A:=Z) [])). reflexivity.
Defined.

(** ** Corner boxes *)

(** C3 does not hold as stated: on the binary64 numbers of an annotation
    file the sum [x + w] is rounded, and [x2 - x1] need not give [w] back.
    Here [w = 38.65] and [h = 28.67] exceed 1, and the box retrieved for
    [473.07, 395.93, 38.65, 28.67] has [x2 - x1 <> w]. *)
Lemma corner_difference_rounds_on_floats :
  ∃ self x2 y2,
    myCocoDetection.__init__ Samples.root Samples.float_image None true true = Ok self
    ∧ myCocoDetection.__getitem__ (λ o : float, o) self 0
      = Ok (Plain "000001.jpg" [[473.07; 395.93; x2; y2]%float] [1])
    ∧ PrimFloat.ltb 1 38.65 = true
    ∧ PrimFloat.ltb 1 28.67 = true
    ∧ num_eqb (num_sub x2 473.07%float) 38.65%float = false.
Proof.
  eexists _, (473.07 + 38.65)%float, (395.93 + 28.67)%float.
  split; [vm_compute; reflexivity|]. by vm_compute.
Qed.

(** C3, amended. An annotation with [bbox = [x, y, w, h]] is retrieved as
    the corner box [[x, y, x + w, y + h]], the sums being those of the
    numbers at hand; on integers, for [w, h > 1], the corner box satisfies
    [x2 - x1 = w] and [y2 - y1 = h] exactly. *)
Theorem corner_conversion :
  (∀ (A : Type) (HA : Number A) (obj : COCO.annotation A) (x y w h : A),
     COCO.bbox obj = [x; y; w; h] →
     box_loop [obj] [] []
     = Ok ([[x; y; num_add x w; num_add y h]], [COCO.category_id obj]))
  ∧ (∀ (obj : COCO.annotation Z) (x y w h : Z),
       COCO.bbox obj = [x; y; w; h] → 1 < w → 1 < h →
       ∃ x2 y2,
         box_loop [obj] [] [] = Ok ([[x; y; x2; y2]], [COCO.category_id obj])
         ∧ num_sub x2 x = w ∧ num_sub y2 y = h).
Proof.
  assert (∀ (A : Type) (HA : Number A) (obj : COCO.annotation A) (x y w h : A),
     COCO.bbox obj = [x; y; w; h] →
     box_loop [obj] [] []
     = Ok ([[x; y; num_add x w; num_add y h]], [COCO.category_id obj])) as Hbox.
  { intros A HA obj x y w h Hobj. apply box_loop_Ok. simpl. rewrite Hobj.
    repeat split. constructor; [rewrite Hobj; simpl; lia|constructor]. }
  split; [done|].
  intros obj x y w h Hobj Hw Hh. exists (x + w), (y + h).
  split; [by apply Hbox|]. simpl. lia.
Qed.

Lemma corner_conversion_witness :
  ∃ x2 y2,
    box_loop [Samples.person1] [] [] = Ok ([[10; 10; x2; y2]], [1])
    ∧ num_sub x2 10 = 50 ∧ num_sub y2 10 = 80.
Proof.
  apply (proj2 corner_conversion Samples.person1 10 10 50 80); [reflexivity|lia|lia].
Defined.

(** ** Indexing *)

Lemma py_index_out_of_range {X} (l : list X) (i : Z) :
  Z.of_nat (length l) ≤ i ∨ i < - Z.of_nat (length l) →
  py_index l i = Raise IndexError.
Proof.
  intros Hi. unfold py_index. cbv zeta.
  destruct (decide (i < 0)); rewrite decide_False by lia; done.
Qed.

Lemma py_index_negative {X} (l : list X) (i : Z) :
  - Z.of_nat (length l) ≤ i < 0 →
  py_index l i = py_index l (i + Z.of_nat (length l)).
Proof.
  intros Hi. unfold py_index. cbv zeta.
  rewrite (decide_True (P := i < 0)) by lia.
  rewrite (decide_False (P := i + Z.of_nat (length l) < 0)) by lia. done.
Qed.

Section index_facts.
Context {A : Type} `{Number A} {Image F32 : Type} (FloatTensor : A → F32).

Lemma getitem_index_ext (ids : list Z) (root : string → option Image)
    (coco : COCO.t A) (transform : option (Transform A Image)) (show : bool)
    (lt : Z → result (list (COCO.annotation A))) (i j : Z) :
  py_index ids i = py_index ids j →
  getitem FloatTensor ids root coco transform show lt i
  = getitem FloatTensor ids root coco transform show lt j.
Proof. unfold getitem. by intros ->. Qed.

Lemma getitem_IndexError (ids : list Z) (root : string → option Image)
    (coco : COCO.t A) (transform : option (Transform A Image)) (show : bool)
    (lt : Z → result (list (COCO.annotation A))) (i : Z) :
  py_index ids i = Raise IndexError →
  getitem FloatTensor ids root coco transform show lt i = Raise IndexError.
Proof. unfold getitem. by intros ->. Qed.
End index_facts.

(** C9 does not hold as stated for negative indices: on a dataset of one
    image, [__getitem__(-1)] returns the record of that image. *)
Lemma negative_index_returns_last_record :
  ∃ self,
    myCocoDetection.__init__ Samples.root Samples.one_image None true false = Ok self
    ∧ myCocoDetection.__len__ self = 1
    ∧ myCocoDetection.__getitem__ Samples.keep self (-1)
      = Ok (Plain "000001.jpg" [[10; 10; 60; 90]; [5; 5; 25; 25]] [1; 18]).
Proof. eexists. split; [vm_compute; reflexivity|]. by vm_compute. Qed.

(** C9, amended. With [n] the length of the index list, [__getitem__(index)]
    raises [IndexError] and returns no record for every [index >= n] and
    every [index < -n]; an index with [-n <= index < 0] counts from the end
    of the list: it is served as [index + n]. This holds in both classes. *)
Theorem getitem_index_bounds {A : Type} `{Number A} {Image F32 : Type}
    (FloatTensor : A → F32) (index : Z) :
  (∀ self : myCocoDetection.t A Image,
     (myCocoDetection.__len__ self ≤ index ∨ index < - myCocoDetection.__len__ self →
      myCocoDetection.__getitem__ FloatTensor self index = Raise IndexError)
     ∧ (- myCocoDetection.__len__ self ≤ index < 0 →
        myCocoDetection.__getitem__ FloatTensor self index
        = myCocoDetection.__getitem__ FloatTensor self
            (index + myCocoDetection.__len__ self)))
  ∧ (∀ self : myCocolimit.t A Image,
       (myCocolimit.__len__ self ≤ index ∨ index < - myCocolimit.__len__ self →
        myCocolimit.__getitem__ FloatTensor self index = Raise IndexError)
       ∧ (- myCocolimit.__len__ self ≤ index < 0 →
          myCocolimit.__getitem__ FloatTensor self index
          = myCocolimit.__getitem__ FloatTensor self
              (index + myCocolimit.__len__ self))).
Proof.
  split; intros self; split; intros Hi.
  - by apply getitem_IndexError, py_index_out_of_range.
  - by apply getitem_index_ext, py_index_negative.
  - by apply getitem_IndexError, py_index_out_of_range.
  - by apply getitem_index_ext, py_index_negative.
Qed.

Lemma getitem_index_bounds_witness :
  ∃ self,
    myCocolimit.__init__ Samples.root Samples.one_image None ["person"] true false = Ok self
    ∧ myCocolimit.__getitem__ Samples.keep self 1 = Raise IndexError
    ∧ myCocolimit.__getitem__ Samples.keep self (-2) = Raise IndexError
    ∧ myCocolimit.__getitem__ Samples.keep self (-1)
      = myCocolimit.__getitem__ Samples.keep self (-1 + 1).
Proof.
  eexists. split; [vm_compute; reflexivity|].
  match goal with |- myCocolimit.__getitem__ _ ?s _ = _ ∧ _ => set (self := s) end.
  split; [|split].
  - apply (proj1 (proj2 (getitem_index_bounds Samples.keep 1) self)).
    left. vm_compute. discriminate.
  - apply (proj1 (proj2 (getitem_index_bounds Samples.keep (-2)) self)).
    right. vm_compute. reflexivity.
  - apply (proj2 (proj2 (getitem_index_bounds Samples.keep (-1)) self)).
    vm_compute. split; [discriminate|reflexivity].
Defined.

(** ** Category names that resolve to nothing *)

Lemma getCatIds_unknown_names {A : Type} (d : COCO.dataset A) (class_list : list string) :
  class_list ≠ [] →
  Forall (λ cat, COCO.name cat ∉ class_list) (COCO.categories d) →
  COCO.getCatIds (COCO.createIndex d) class_list = [].
Proof.
  intros Hne Hall. unfold COCO.getCatIds. cbv zeta.
  rewrite decide_False by (by destruct class_list).
  cbn [COCO.ds COCO.createIndex].
  induction Hall as [|cat cats Hcat _ IH]; [done|].
  rewrite filter_cons, decide_False by done. done.
Qed.

(** C5 does not hold as stated: with the only name [nonexistent_category]
    and validation on, the constructor returns a dataset, whose category
    ids and index list are empty. *)
Lemma unknown_category_builds_empty_dataset :
  ∃ self,
    myCocolimit.__init__ Samples.root Samples.one_image None
      ["nonexistent_category"] true false = Ok self
    ∧ myCocolimit.catIds self = []
    ∧ myCocolimit.ids self = []
    ∧ myCocolimit.__len__ self = 0.
Proof. eexists. split; [vm_compute; reflexivity|]. by vm_compute. Qed.

(** C5, amended. Construction of the category-restricted dataset with a
    non-empty list of names none of which is a category of the store does
    not fail: it returns a dataset with no category id and an empty index
    list, on which every [__getitem__] raises [IndexError]. *)
Theorem unknown_names_give_empty_dataset {A : Type} `{Number A} {Image : Type}
    (root : string → option Image) (annFile : COCO.dataset A)
    (transform : option (Transform A Image)) (class_list : list string)
    (remove_invalid_data show : bool) :
  class_list ≠ [] →
  Forall (λ cat, COCO.name cat ∉ class_list) (COCO.categories annFile) →
  ∃ self,
    myCocolimit.__init__ root annFile transform class_list remove_invalid_data show
    = Ok self
    ∧ myCocolimit.catIds self = []
    ∧ myCocolimit.ids self = []
    ∧ ∀ (F32 : Type) (FloatTensor : A → F32) (index : Z),
        myCocolimit.__getitem__ FloatTensor self index = Raise IndexError.
Proof.
  intros Hne Hall. eexists. split; [apply myCocolimit_init|].
  cbn [myCocolimit.catIds myCocolimit.ids].
  rewrite (getCatIds_unknown_names annFile class_list Hne Hall).
  assert (final_ids (COCO.createIndex annFile) remove_invalid_data (concat (COCO.getImgIds (COCO.createIndex annFile) <$> [])) = []) as Hids
    by by destruct remove_invalid_data.
  rewrite Hids. repeat split.
  intros F32 FloatTensor index. apply getitem_IndexError. cbn [myCocolimit.ids].
  apply py_index_out_of_range. simpl. lia.
Qed.

Lemma unknown_names_give_empty_dataset_witness :
  ∃ self,
    myCocolimit.__init__ Samples.root Samples.two_images (Some Samples.elementwise)
      ["unicorn"; "dragon"] true false = Ok self
    ∧ myCocolimit.catIds self = []
    ∧ myCocolimit.ids self = []
    ∧ ∀ (F32 : Type) (FloatTensor : Z → F32) (index : Z),
        myCocolimit.__getitem__ FloatTensor self index = Raise IndexError.
Proof.
  apply (unknown_names_give_empty_dataset Samples.root Samples.two_images
           (Some Samples.elementwise) ["unicorn"; "dragon"] true false).
  - discriminate.
  - repeat constructor; intros Hin;
      repeat (apply elem_of_cons in Hin as [Hin|Hin]; [discriminate|]);
      by apply elem_of_nil in Hin.
Defined.


(** ** The index list of the category-restricted class *)

Lemma length_filter_eq_NoDup (l : list Z) (i : Z) :
  NoDup l → length (filter (λ j, j = i) l) = if decide (i ∈ l) then 1%nat else 0%nat.
Proof.
  induction 1 as [|j l Hj _ IH]; [done|].
  rewrite filter_cons. destruct (decide (j = i)) as [->|Hne].
  - rewrite decide_True by left. simpl. rewrite IH. by rewrite decide_False.
  - rewrite IH. destruct (decide (i ∈ l)) as [Hin|Hin].
    + rewrite decide_True by by right. done.
    + rewrite decide_False; [done|]. intros [?|?]%elem_of_cons; congruence.
Qed.

Lemma occurrences_in_concat_getImgIds {A : Type} (coco : COCO.t A) (catIds : list Z) (i : Z) :
  length (filter (λ j, j = i) (concat (COCO.getImgIds coco <$> catIds)))
  = length (filter (λ id, i ∈ COCO.getImgIds coco id) catIds).
Proof.
  induction catIds as [|id catIds IH]; [done|].
  rewrite fmap_cons, concat_cons, filter_app, length_app, IH.
  rewrite length_filter_eq_NoDup by apply NoDup_getImgIds.
  rewrite (filter_cons (λ id, i ∈ COCO.getImgIds coco id)).
  by destruct (decide (i ∈ COCO.getImgIds coco id)).
Qed.

(** C6 does not hold as stated: the one image of the sample store holds a
    person and a dog, and with both names requested its id is listed
    twice. *)
Lemma image_of_two_categories_listed_twice :
  ∃ self,
    myCocolimit.__init__ Samples.root Samples.one_image None ["person"; "dog"] true false
    = Ok self
    ∧ myCocolimit.catIds self = [1; 18]
    ∧ myCocolimit.ids self = [1; 1].
Proof. eexists. split; [vm_compute; reflexivity|]. by vm_compute. Qed.

(** C6, amended. When category names are given, the constructor resolves
    them to category ids and starts from the concatenation, over the
    resolved ids in order, of the store's list of the images holding an
    annotation of that category; each of these lists is free of duplicates,
    but nothing is removed across categories, so that an image is listed
    once for every resolved category id of which it holds an annotation.
    Validation, when on, then filters this list. *)
Theorem restricted_ids_concatenate_categories {A : Type} `{Number A} {Image : Type}
    (root : string → option Image) (annFile : COCO.dataset A)
    (transform : option (Transform A Image)) (class_list : list string)
    (remove_invalid_data show : bool) :
  ∃ self pre,
    myCocolimit.__init__ root annFile transform class_list remove_invalid_data show
    = Ok self
    ∧ myCocolimit.catIds self = COCO.getCatIds (myCocolimit.coco self) class_list
    ∧ pre = concat (COCO.getImgIds (myCocolimit.coco self) <$> myCocolimit.catIds self)
    ∧ myCocolimit.ids self
      = (if remove_invalid_data
         then filter (λ i, valid_image (myCocolimit.coco self) i = true) pre
         else pre)
    ∧ (∀ id, NoDup (COCO.getImgIds (myCocolimit.coco self) id))
    ∧ (∀ id i, i ∈ COCO.getImgIds (myCocolimit.coco self) id
               ↔ ∃ a, a ∈ COCO.annotations annFile
                      ∧ COCO.category_id a = id ∧ COCO.image_id a = i)
    ∧ (∀ i, length (filter (λ j, j = i) pre)
            = length (filter (λ id, i ∈ COCO.getImgIds (myCocolimit.coco self) id)
                        (myCocolimit.catIds self))).
Proof.
  eexists _, _. split; [apply myCocolimit_init|].
  cbn [myCocolimit.catIds myCocolimit.coco myCocolimit.ids].
  split; [done|]. split; [done|]. split; [done|].
  split; [intros id; apply NoDup_getImgIds|].
  split; [intros id i; apply elem_of_getImgIds|].
  intros i. apply occurrences_in_concat_getImgIds.
Qed.

(** ** The transform branch *)

Lemma reshape4_Ok_length {X} (l : list X) (rows : list (list X)) :
  reshape4 l = Ok rows → length l = (4 * length rows)%nat ∧ concat rows = l.
Proof.
  revert rows.
  induction l as [|a|a b|a b c|a b c d l IH] using list_ind4; intros rows;
    try discriminate.
  - by intros [= <-].
  - cbn [reshape4]. intros (rows' & Hrows' & [= <-])%bind_Ok.
    destruct (IH _ Hrows') as [Hlen Hcat]. simpl. rewrite Hcat. split; [lia|done].
Qed.

(** C8 does not hold as stated: a transform that keeps the first box only
    turns the two boxes of the sample image into one, and [__getitem__]
    returns a target of one box and two labels; nothing is raised. *)
Lemma cardinality_change_is_returned :
  ∃ self,
    myCocolimit.__init__ Samples.root Samples.one_image (Some Samples.first_only)
      ["person"; "dog"] true false = Ok self
    ∧ on_array Samples.first_only [[10; 10; 60; 90]; [5; 5; 25; 25]] = Ok [10; 10; 60; 90]
    ∧ myCocolimit.__getitem__ Samples.keep self 0
      = Ok (Sample 1 "000001.jpg" {| boxes := [[10; 10; 60; 90]]; labels := [1; 18] |}).
Proof. eexists. split; [vm_compute; reflexivity|]. by vm_compute. Qed.

(** C8, amended. When a transform is configured (and [show] is off),
    [__getitem__] does not compare the number of boxes before and after the
    transform. It reshapes what the transform returns for the box array
    into rows of four: when that output has [4 * M] elements, the record is
    returned with [M] boxes next to the labels of all the annotations,
    whether or not [M] is their number; only when the number of elements is
    not a multiple of four does the reshape raise ([RuntimeError]). Both
    classes run this body, each with its own [_load_target]. *)
Theorem transform_cardinality_unchecked {A : Type} `{Number A} {Image F32 : Type}
    (FloatTensor : A → F32) (ids : list Z) (root : string → option Image)
    (coco : COCO.t A) (tf : Transform A Image)
    (_load_target : Z → result (list (COCO.annotation A))) (index idx : Z)
    (image image' : Image) (target : list (COCO.annotation A)) (flat : list A) :
  py_index ids index = Ok idx →
  _load_image root coco idx = Ok image →
  _load_target idx = Ok target →
  Forall (λ obj, 4 ≤ length (COCO.bbox obj))%nat target →
  Forall (λ z, - 2 ^ 63 ≤ z < 2 ^ 63) (COCO.category_id <$> target) →
  on_image tf image = Ok image' →
  on_array tf ((λ obj, corner_box (COCO.bbox obj)) <$> target) = Ok flat →
  (∀ M : nat, length flat = (4 * M)%nat →
     ∃ rows,
       getitem FloatTensor ids root coco (Some tf) false _load_target index
       = Ok (Sample idx image'
               {| boxes := rows; labels := COCO.category_id <$> target |})
       ∧ length rows = M)
  ∧ ((∀ M : nat, length flat ≠ (4 * M)%nat) →
     getitem FloatTensor ids root coco (Some tf) false _load_target index
     = Raise RuntimeError).
Proof.
  intros Hidx Himg Htgt Hfour Hrng Him' Hflat.
  destruct (reshape4_spec flat) as [Hyes Hno]. split.
  - intros M HM. destruct (Hyes M HM) as (rows & Hrows & Hlen & _).
    exists (map (map FloatTensor) rows). split; [|by rewrite length_map].
    apply getitem_Ok. exists idx, image, target. repeat split; try done.
    cbv zeta. by exists image', flat, rows.
  - intros HM. unfold getitem. rewrite Hidx. simpl. rewrite Himg. simpl.
    rewrite Htgt. simpl.
    assert (box_loop target [] []
            = Ok ((λ obj, corner_box (COCO.bbox obj)) <$> target,
                  COCO.category_id <$> target)) as -> by by apply box_loop_Ok.
    simpl. rewrite Him'. simpl. rewrite Hflat. simpl. by rewrite (Hno HM).
Qed.

Lemma transform_cardinality_unchecked_witness :
  ∃ rows,
    getitem Samples.keep [1] Samples.root (COCO.createIndex Samples.one_image)
      (Some Samples.twice) false
      (λ id, COCO.loadAnns (COCO.createIndex Samples.one_image)
               (COCO.getAnnIds (COCO.createIndex Samples.one_image) id)) 0
    = Ok (Sample 1 "000001.jpg" {| boxes := rows; labels := [1; 18] |})
    ∧ length rows = 4%nat.
Proof.
  apply (proj1 (transform_cardinality_unchecked Samples.keep [1] Samples.root
                  (COCO.createIndex Samples.one_image) Samples.twice
                  (λ id, COCO.loadAnns (COCO.createIndex Samples.one_image)
                           (COCO.getAnnIds (COCO.createIndex Samples.one_image) id))
                  0 1 "000001.jpg" "000001.jpg" [Samples.person1; Samples.dog1]
                  [10; 10; 60; 90; 5; 5; 25; 25; 10; 10; 60; 90; 5; 5; 25; 25]
                  ltac:(reflexivity) ltac:(vm_compute; reflexivity)
                  ltac:(vm_compute; reflexivity)
                  ltac:(repeat constructor) ltac:(repeat constructor; discriminate)
                  ltac:(reflexivity) ltac:(reflexivity)) 4%nat).
  reflexivity.
Defined.

(** ** Boxes and labels of a record *)

Section record_facts.
Context {A : Type} `{Number A} {Image F32 : Type} (FloatTensor : A → F32).

Lemma getitem_boxes_labels (ids : list Z) (root : string → option Image)
    (coco : COCO.t A) (transform : option (Transform A Image)) (show : bool)
    (lt : Z → result (list (COCO.annotation A))) (index : Z) (it : item A Image F32) :
  getitem FloatTensor ids root coco transform show lt index = Ok it →
  ∃ idx target,
    py_index ids index = Ok idx
    ∧ lt idx = Ok target
    ∧ item_labels it = COCO.category_id <$> target
    ∧ (∀ image bboxes labels, it = Plain image bboxes labels →
         bboxes = (λ obj, corner_box (COCO.bbox obj)) <$> target)
    ∧ (keeps_count transform show target →
         item_box_count it = length (item_labels it)
         ∧ item_box_count it = length target).
Proof.
  intros (idx & image & target & Hidx & _ & Htgt & _ & Hit)%getitem_Ok.
  cbv zeta in Hit. exists idx, target. split; [done|]. split; [done|].
  assert (it = Plain image ((λ obj, corner_box (COCO.bbox obj)) <$> target)
                 (COCO.category_id <$> target) →
          item_labels it = COCO.category_id <$> target
          ∧ (∀ image bboxes labels, it = Plain image bboxes labels →
               bboxes = (λ obj, corner_box (COCO.bbox obj)) <$> target)
          ∧ (keeps_count transform show target →
               item_box_count it = length (item_labels it)
               ∧ item_box_count it = length target)) as Hplain.
  { intros ->. split; [done|]. split; [by intros ? ? ? [= _ <- _]|].
    intros _. cbn [item_box_count item_labels]. by rewrite !length_fmap. }
  destruct show; [by apply Hplain|].
  destruct transform as [tf|]; [|by apply Hplain].
  destruct Hit as (image' & flat & rows & _ & Hflat & Hrows & _ & ->).
  split; [done|]. split; [done|].
  intros Hkeep. cbn [item_box_count item_labels boxes labels].
  rewrite ?length_map, ?length_fmap.
  apply reshape4_Ok_length in Hrows as [Hlen _].
  specialize (Hkeep eq_refl tf flat eq_refl Hflat). lia.
Qed.
End record_facts.

Lemma labels_of_returned_item {A : Type} `{Number A} {Image F32 : Type}
    (FloatTensor : A → F32) (index : Z) (it : item A Image F32) :
  (∀ self : myCocoDetection.t A Image,
     myCocoDetection.__getitem__ FloatTensor self index = Ok it →
     ∃ target : list (COCO.annotation A),
       item_labels it = COCO.category_id <$> target)
  ∧ (∀ self : myCocolimit.t A Image,
       myCocolimit.__getitem__ FloatTensor self index = Ok it →
       ∃ checked : list (COCO.annotation A),
         item_labels it
         = COCO.category_id
             <$> filter (λ ann, COCO.category_id ann ∈ myCocolimit.catIds self) checked).
Proof.
  split; intros self Hget.
  - apply getitem_boxes_labels in Hget as (idx & target & _ & _ & Hlab & _). eauto.
  - apply getitem_boxes_labels in Hget as (idx & target & _ & Htgt & Hlab & _).
    unfold myCocolimit._load_target in Htgt.
    apply bind_Ok in Htgt as (checked & _ & [= <-]). eauto.
Qed.

(** C4 does not hold as stated: with a transform that returns every box
    twice, the record of the sample image has four boxes and two labels. *)
Lemma boxes_outnumber_labels_after_transform :
  ∃ self it,
    myCocoDetection.__init__ Samples.root Samples.one_image (Some Samples.twice) true false
    = Ok self
    ∧ myCocoDetection.__getitem__ Samples.keep self 0 = Ok it
    ∧ item_box_count it = 4%nat
    ∧ length (item_labels it) = 2%nat.
Proof.
  eexists _, _. split; [vm_compute; reflexivity|].
  split; [vm_compute; reflexivity|]. by vm_compute.
Qed.

(** C4, amended. Whenever [__getitem__(index)] returns a record, in either
    class, its labels are the category ids of the annotations the class's
    [_load_target] gives for the image (for [myCocolimit]: the loaded
    annotations whose category is among the resolved ids), one label per
    annotation and in their order. When no transform is applied the boxes
    are the corner boxes of the same annotations in the same order, so
    that box [j] and label [j] come from annotation [j]. The record has as
    many boxes as labels, and as many as annotations, provided that the
    transform, when one is applied, returns four elements per box. *)
Theorem record_boxes_and_labels {A : Type} `{Number A} {Image F32 : Type}
    (FloatTensor : A → F32) (index : Z) (it : item A Image F32) :
  (∀ self : myCocoDetection.t A Image,
     myCocoDetection.__getitem__ FloatTensor self index = Ok it →
     ∃ idx target,
       py_index (myCocoDetection.ids self) index = Ok idx
       ∧ myCocoDetection._load_target self idx = Ok target
       ∧ item_labels it = COCO.category_id <$> target
       ∧ (∀ image bboxes labels, it = Plain image bboxes labels →
            bboxes = (λ obj, corner_box (COCO.bbox obj)) <$> target)
       ∧ (keeps_count (myCocoDetection.transform self) (myCocoDetection.show self) target →
            item_box_count it = length (item_labels it)
            ∧ item_box_count it = length target))
  ∧ (∀ self : myCocolimit.t A Image,
       myCocolimit.__getitem__ FloatTensor self index = Ok it →
       ∃ idx checked target,
         py_index (myCocolimit.ids self) index = Ok idx
         ∧ checked_view (myCocolimit.coco self) idx = Ok checked
         ∧ target = filter (λ ann, COCO.category_id ann ∈ myCocolimit.catIds self) checked
         ∧ myCocolimit._load_target self idx = Ok target
         ∧ item_labels it = COCO.category_id <$> target
         ∧ (∀ image bboxes labels, it = Plain image bboxes labels →
              bboxes = (λ obj, corner_box (COCO.bbox obj)) <$> target)
         ∧ (keeps_count (myCocolimit.transform self) (myCocolimit.show self) target →
              item_box_count it = length (item_labels it)
              ∧ item_box_count it = length target)).
Proof.
  split; intros self Hget.
  - by apply getitem_boxes_labels in Hget.
  - apply getitem_boxes_labels in Hget as (idx & target & Hidx & Htgt & Hrest).
    pose proof Htgt as Htgt'. unfold myCocolimit._load_target in Htgt'.
    apply bind_Ok in Htgt' as (checked & Hchecked & [= <-]).
    destruct Hrest as (Hlab & Hplain & Hcount).
    exists idx, checked. eexists. split; [exact Hidx|]. split; [exact Hchecked|].
    split; [reflexivity|]. split; [exact Htgt|]. split; [exact Hlab|].
    split; [exact Hplain|exact Hcount].
Qed.

Lemma record_boxes_and_labels_witness :
  ∃ (self : myCocolimit.t Z string) it,
    myCocolimit.__init__ Samples.root Samples.two_images (Some Samples.elementwise)
      ["dog"] false false = Ok self
    ∧ myCocolimit.__getitem__ Samples.keep self 0 = Ok it
    ∧ py_index (myCocolimit.ids self) 0 = Ok 1
    ∧ checked_view (myCocolimit.coco self) 1 = Ok [Samples.person1; Samples.dog1]
    ∧ myCocolimit._load_target self 1 = Ok [Samples.dog1]
    ∧ item_labels it = [18]
    ∧ item_box_count it = 1%nat.
Proof.
  eexists _, _.
  match goal with |- ?i = Ok ?s ∧ ?g = Ok ?it ∧ _ =>
    assert (i = Ok s) as Hinit by (vm_compute; reflexivity);
    assert (g = Ok it) as Hget by (vm_compute; reflexivity)
  end.
  destruct (proj2 (record_boxes_and_labels Samples.keep 0 _) _ Hget)
    as (idx & checked & target & Hidx & Hchecked & Htarget & Hload & Hlabels & _ & Hcount).
  vm_compute in Hidx. injection Hidx as <-.
  vm_compute in Hchecked. injection Hchecked as <-.
  vm_compute in Htarget. subst target.
  destruct Hcount as [Hsame _].
  { intros _ tf flat [= <-] [= <-]. reflexivity. }
  split; [exact Hinit|]. split; [exact Hget|]. split; [reflexivity|].
  split; [vm_compute; reflexivity|]. split; [exact Hload|].
  split; [exact Hlabels|]. rewrite Hsame, Hlabels. reflexivity.
Defined.

(** ** Category restriction *)

Lemma elem_of_concat_fmap {X Y} (f : X → list Y) (l : list X) (y : Y) :
  y ∈ concat (f <$> l) ↔ ∃ x, x ∈ l ∧ y ∈ f x.
Proof.
  induction l as [|x l IH].
  - simpl. split; [by intros ?%elem_of_nil|by intros (? & ?%elem_of_nil & _)].
  - rewrite fmap_cons, concat_cons, elem_of_app, IH. split.
    + intros [Hy|(x' & Hx' & Hy)]; [exists x; split; [left|done]|].
      exists x'. split; [by right|done].
    + intros (x' & [->|Hx']%elem_of_cons & Hy); [by left|right; eauto].
Qed.

Lemma elem_of_final_ids {A : Type} `{Number A} (coco : COCO.t A) (b : bool)
    (pre : list Z) (i : Z) :
  i ∈ final_ids coco b pre ↔ i ∈ pre ∧ (b = true → valid_image coco i = true).
Proof.
  destruct b; simpl.
  - rewrite list_elem_of_filter. tauto.
  - split; [by intros ?|by intros [? _]].
Qed.

(** C7. A category-restricted dataset lists only images that the
    unrestricted dataset over the same annotation file (every annotation
    of which belongs to one of its images), built with the same validation
    flag, lists as well; and every label of every record it returns is one
    of the category ids resolved from the requested names. *)
Theorem restricted_ids_and_labels {A : Type} `{Number A} {Image F32 : Type}
    (FloatTensor : A → F32) (root : string → option Image) (annFile : COCO.dataset A)
    (transform transform' : option (Transform A Image)) (class_list : list string)
    (remove_invalid_data show show' : bool)
    (self : myCocolimit.t A Image) (full : myCocoDetection.t A Image) :
  anns_have_images annFile →
  myCocolimit.__init__ root annFile transform class_list remove_invalid_data show
  = Ok self →
  myCocoDetection.__init__ root annFile transform' remove_invalid_data show' = Ok full →
  myCocolimit.ids self ⊆ myCocoDetection.ids full
  ∧ myCocolimit.catIds self = COCO.getCatIds (COCO.createIndex annFile) class_list
  ∧ ∀ index it,
      myCocolimit.__getitem__ FloatTensor self index = Ok it →
      ∀ label, label ∈ item_labels it → label ∈ myCocolimit.catIds self.
Proof.
  intros Hwf Hself Hfull.
  rewrite myCocolimit_init in Hself. injection Hself as <-.
  rewrite myCocoDetection_init in Hfull. injection Hfull as <-.
  cbn [myCocolimit.ids myCocolimit.catIds myCocoDetection.ids].
  split; [|split; [done|]].
  - intros i [Hpre Hvalid]%elem_of_final_ids. apply elem_of_final_ids.
    split; [|done]. apply elem_of_CocoDetection_ids.
    apply elem_of_concat_fmap in Hpre as (id & _ & Hi).
    apply elem_of_getImgIds in Hi as (a & Ha & _ & <-). by apply Hwf.
  - intros index it Hget label Hlabel.
    destruct (proj2 (labels_of_returned_item FloatTensor index it) _ Hget)
      as (checked & Hlab).
    rewrite Hlab in Hlabel. apply list_elem_of_fmap in Hlabel as (ann & -> & Hann).
    by apply list_elem_of_filter in Hann as [? _].
Qed.

Lemma restricted_ids_and_labels_witness :
  ∃ (self : myCocolimit.t Z string) (full : myCocoDetection.t Z string),
    myCocolimit.__init__ Samples.root Samples.two_images None ["person"; "dog"] true false
    = Ok self
    ∧ myCocoDetection.__init__ Samples.root Samples.two_images None true false = Ok full
    ∧ myCocolimit.ids self ⊆ myCocoDetection.ids full
    ∧ myCocolimit.catIds self
      = COCO.getCatIds (COCO.createIndex Samples.two_images) ["person"; "dog"]
    ∧ ∀ index it,
        myCocolimit.__getitem__ Samples.keep self index = Ok it →
        ∀ label, label ∈ item_labels it → label ∈ myCocolimit.catIds self.
Proof.
  eexists _, _.
  match goal with |- ?i = Ok ?s ∧ ?j = Ok ?f ∧ _ =>
    assert (i = Ok s) as Hself by (vm_compute; reflexivity);
    assert (j = Ok f) as Hfull by (vm_compute; reflexivity)
  end.
  split; [exact Hself|]. split; [exact Hfull|].
  apply (restricted_ids_and_labels Samples.keep Samples.root Samples.two_images
           None None ["person"; "dog"] true false false _ _); [|exact Hself|exact Hfull].
  intros a Ha. apply list_elem_of_In in Ha. apply list_elem_of_In.
  simpl in Ha. destruct Ha as [<-|[<-|[<-|[<-|[]]]]]; simpl; auto.
Defined.

(** ** The view checked and the view retrieved *)

(** C1 does not hold as stated. With only [person] requested, the
    constructor checks both annotations of image 1, the person and the dog,
    while [_load_target] retrieves the person alone. The two views also
    decide differently: image 2 is dropped for its one-pixel cat although
    the view retrieved for it, its person, passes [is_valid_data]. *)
Lemma checked_view_is_not_filtered :
  ∃ self,
    myCocolimit.__init__ Samples.root Samples.two_images None ["person"] true false
    = Ok self
    ∧ myCocolimit.catIds self = [1]
    ∧ myCocolimit.ids self = [1]
    ∧ checked_view (myCocolimit.coco self) 1 = Ok [Samples.person1; Samples.dog1]
    ∧ myCocolimit._load_target self 1 = Ok [Samples.person1]
    ∧ checked_view (myCocolimit.coco self) 2 = Ok [Samples.person2; Samples.speck2]
    ∧ myCocolimit._load_target self 2 = Ok [Samples.person2]
    ∧ is_valid_data [Samples.person2] = true.
Proof. eexists. split; [vm_compute; reflexivity|]. by vm_compute. Qed.

(** C1, amended. In the category-restricted class the view retrieved for an
    image is the view checked at construction, filtered: the constructor
    hands all the loaded annotations of the image to [is_valid_data],
    whatever their category, and [_load_target] returns those of them whose
    category is among the resolved ids, in the same order. So every
    annotation from which boxes and labels are derived was checked: for an
    image kept by validation all the boxes retrieved have sides above 1
    and, when the annotation ids of the file are distinct, the view
    retrieved is not empty and passes [is_valid_data] too. *)
Theorem retrieved_view_filters_checked_view {A : Type} `{Number A} {Image : Type}
    (root : string → option Image) (annFile : COCO.dataset A)
    (transform : option (Transform A Image)) (class_list : list string)
    (remove_invalid_data show : bool) (self : myCocolimit.t A Image) (img_id : Z) :
  myCocolimit.__init__ root annFile transform class_list remove_invalid_data show
  = Ok self →
  ∃ checked retrieved,
    checked_view (myCocolimit.coco self) img_id = Ok checked
    ∧ myCocolimit._load_target self img_id = Ok retrieved
    ∧ retrieved = filter (λ ann, COCO.category_id ann ∈ myCocolimit.catIds self) checked
    ∧ (remove_invalid_data = true → img_id ∈ myCocolimit.ids self →
       is_valid_data checked = true
       ∧ all_boxes_ok retrieved = true
       ∧ (NoDup (COCO.ann_id <$> COCO.annotations annFile) →
          is_valid_data retrieved = true)).
Proof.
  intros Hself. rewrite myCocolimit_init in Hself. injection Hself as <-.
  cbn [myCocolimit.ids myCocolimit.catIds myCocolimit.coco].
  set (coco := COCO.createIndex annFile).
  set (catIds := COCO.getCatIds coco class_list).
  destruct (checked_view_total annFile img_id) as [checked Hchecked].
  fold coco in Hchecked.
  exists checked, (filter (λ ann, COCO.category_id ann ∈ catIds) checked).
  split; [done|]. split; [by apply myCocolimit_load_target|]. split; [done|].
  intros -> [Hpre Hvalid]%elem_of_final_ids. specialize (Hvalid eq_refl).
  apply valid_image_true in Hvalid as (anno & Hanno & Hvalid).
  rewrite Hchecked in Hanno. injection Hanno as <-.
  split; [done|].
  apply is_valid_data_true in Hvalid as [_ Hall].
  assert (Forall (λ obj, small_side (drop 2 (COCO.bbox obj)) = false)
            (filter (λ ann, COCO.category_id ann ∈ catIds) checked)) as Hall'.
  { apply Forall_forall. intros obj [_ Hobj]%list_elem_of_filter.
    rewrite Forall_forall in Hall. by apply Hall. }
  split; [by apply all_boxes_ok_true|].
  intros Hnd. apply is_valid_data_true. split; [|done].
  apply elem_of_concat_fmap in Hpre as (id & Hid & Hi).
  apply elem_of_getImgIds in Hi as (a & Ha & Hcat & Himg).
  unfold checked_view in Hchecked. unfold coco in Hchecked.
  rewrite loadAnns_getAnnIds_NoDup in Hchecked by done. injection Hchecked as <-.
  assert (a ∈ filter (λ ann, COCO.category_id ann ∈ catIds) (anns_of_image annFile img_id))
    as Hin.
  { apply list_elem_of_filter. split; [by rewrite Hcat|].
    by apply list_elem_of_filter. }
  intros Hnil. rewrite Hnil in Hin. by apply elem_of_nil in Hin.
Qed.

Lemma retrieved_view_filters_checked_view_witness :
  ∃ (self : myCocolimit.t Z string) checked retrieved,
    myCocolimit.__init__ Samples.root Samples.two_images None ["person"] true false
    = Ok self
    ∧ checked_view (myCocolimit.coco self) 1 = Ok checked
    ∧ myCocolimit._load_target self 1 = Ok retrieved
    ∧ retrieved = filter (λ ann, COCO.category_id ann ∈ myCocolimit.catIds self) checked
    ∧ is_valid_data checked = true
    ∧ all_boxes_ok retrieved = true
    ∧ is_valid_data retrieved = true.
Proof.
  eexists.
  match goal with |- ∃ checked retrieved, ?i = Ok ?s ∧ _ =>
    assert (i = Ok s) as Hself by (vm_compute; reflexivity)
  end.
  destruct (retrieved_view_filters_checked_view Samples.root Samples.two_images
              None ["person"] true false _ 1 Hself)
    as (checked & retrieved & Hchecked & Hload & Hfilter & Hkept).
  destruct (Hkept eq_refl) as (Hvalid & Hboxes & Hretrieved); [simpl; left|].
  exists checked, retrieved. repeat (split; [assumption|]).
  apply Hretrieved. apply (bool_decide_unpack _). vm_compute. exact I.
Defined.

(** * Further properties of the dataset classes *)

Lemma bind_Raise {X Y} (f : X → result Y) (m : result X) (e : exn) :
  m ≫= f = Raise e ↔ m = Raise e ∨ ∃ x, m = Ok x ∧ f x = Raise e.
Proof.
  destruct m as [x|e']; simpl; split.
  - intros Hf. right. by exists x.
  - intros [[=]|(x' & [= <-] & Hf)]. done.
  - intros [= <-]. by left.
  - intros [[= <-]|(x' & [=] & _)]. done.
Qed.

Lemma py_index_Raise {X} (l : list X) (i : Z) (e : exn) :
  py_index l i = Raise e → e = IndexError.
Proof.
  unfold py_index. cbv zeta. case_decide; [|by intros [= <-]].
  destruct (l !! _); simpl; [discriminate|by intros [= <-]].
Qed.

Lemma py_index_Ok_elem {X} (l : list X) (i : Z) (x : X) :
  py_index l i = Ok x → x ∈ l.
Proof.
  unfold py_index. cbv zeta. case_decide; [|discriminate].
  destruct (l !! _) as [y|] eqn:Hy; simpl; [|discriminate].
  intros [= <-]. by eapply list_elem_of_lookup_2.
Qed.

Section more_shared_facts.
Context {A : Type} `{Number A}.
Implicit Types (obj : COCO.annotation A) (anno target : list (COCO.annotation A)).

Lemma corners_Raise (b : list A) (e : exn) :
  corners b = Raise e ↔ (length b < 4)%nat ∧ e = IndexError.
Proof.
  unfold corners. rewrite !py_index_nonneg by lia.
  destruct b as [|x [|y [|w [|h b]]]]; simpl;
    try (split; [intros [= <-]; split; [lia|done] | by intros [_ ->]]).
  split; [discriminate|intros [? _]; lia].
Qed.

Lemma box_loop_Raise target (bboxes : list (list A)) (labels : list Z) (e : exn) :
  box_loop target bboxes labels = Raise e
  ↔ Exists (λ obj, length (COCO.bbox obj) < 4)%nat target ∧ e = IndexError.
Proof.
  revert bboxes labels. induction target as [|obj target IH]; intros bboxes labels.
  - simpl. split; [discriminate|]. by intros [?%Exists_nil _].
  - cbn [box_loop]. rewrite bind_Raise, corners_Raise, Exists_cons. split.
    + intros [[Hlen ->]|(bbox & Hc & Hloop)]; [by auto|].
      apply IH in Hloop as [Hex ->]. by auto.
    + intros [[Hlen|Hex] ->]; [by left|].
      destruct (corners (COCO.bbox obj)) as [bbox|e'] eqn:Hc.
      * right. exists bbox. split; [done|]. by apply IH.
      * left. apply corners_Raise in Hc as [? _]. done.
Qed.

Lemma small_side_false (os : list A) :
  small_side os = false ↔ Forall (λ o, num_leb o num_one = false) os.
Proof.
  induction os as [|o os IH]; simpl; [split; [constructor|done]|].
  rewrite Forall_cons. destruct (num_leb o num_one).
  - split; [done|by intros [? _]].
  - rewrite IH. tauto.
Qed.
End more_shared_facts.

(** X1. [is_valid_data] is true exactly on the non-empty sequences in which
    no box has a component [<= 1] at the third place or any later one: the
    first two numbers of a box are never looked at, and a fifth or further
    number counts like the width and the height. *)
Theorem is_valid_data_exact {A : Type} `{Number A} (anno : list (COCO.annotation A)) :
  is_valid_data anno = true
  ↔ anno ≠ []
    ∧ ∀ obj (k : nat) o,
        obj ∈ anno → (2 ≤ k)%nat → COCO.bbox obj !! k = Some o →
        num_leb o num_one = false.
Proof.
  rewrite is_valid_data_true. split; intros [Hne Hall]; (split; [done|]).
  - intros obj k o Hobj Hk Ho. rewrite Forall_forall in Hall.
    specialize (Hall obj Hobj). apply small_side_false in Hall.
    rewrite Forall_forall in Hall. apply Hall.
    apply (list_elem_of_lookup_2 _ (k - 2)%nat). rewrite lookup_drop.
    by replace (2 + (k - 2))%nat with k by lia.
  - apply Forall_forall. intros obj Hobj. apply small_side_false, Forall_forall.
    intros o [k Hk]%list_elem_of_lookup. rewrite lookup_drop in Hk.
    apply (Hall obj (2 + k)%nat o); [done|lia|done].
Qed.

(** X2. Validity passes to parts: every non-empty subsequence of a sequence
    of annotations that passes [is_valid_data] passes it too. *)
Theorem is_valid_data_sublist {A : Type} `{Number A} (sub anno : list (COCO.annotation A)) :
  sub `sublist_of` anno → sub ≠ [] →
  is_valid_data anno = true → is_valid_data sub = true.
Proof.
  intros Hsub Hne [_ Hall]%is_valid_data_true. apply is_valid_data_true.
  split; [done|]. apply Forall_forall. intros obj Hobj.
  rewrite Forall_forall in Hall. apply Hall. by eapply elem_of_sublist.
Qed.

Lemma is_valid_data_sublist_witness :
  is_valid_data [Samples.dog1] = true.
Proof.
  apply (is_valid_data_sublist [Samples.dog1] [Samples.person1; Samples.dog1]).
  - apply sublist_cons, sublist_skip, sublist_nil.
  - discriminate.
  - reflexivity.
Defined.

(** X3. The validity check does not look at the length of a box, and
    retrieval needs four numbers: a non-empty sequence of annotations whose
    boxes have at most two numbers passes [is_valid_data], while the loop of
    [__getitem__] raises [IndexError] as soon as one box of the target has
    fewer than four numbers. *)
Theorem short_boxes_pass_validation_and_fail_retrieval {A : Type} `{Number A}
    (anno : list (COCO.annotation A)) :
  (anno ≠ [] → Forall (λ obj, length (COCO.bbox obj) ≤ 2)%nat anno →
   is_valid_data anno = true)
  ∧ (Exists (λ obj, length (COCO.bbox obj) < 4)%nat anno →
     ∀ bboxes labels, box_loop anno bboxes labels = Raise IndexError).
Proof.
  split.
  - intros Hne Hall. apply is_valid_data_true. split; [done|].
    eapply Forall_impl; [exact Hall|]. intros obj Hlen. simpl in Hlen.
    by rewrite drop_ge.
  - intros Hex bboxes labels. by apply box_loop_Raise.
Qed.

Lemma short_boxes_pass_validation_and_fail_retrieval_witness :
  is_valid_data [ {| COCO.ann_id := 1; COCO.image_id := 1; COCO.category_id := 1;
                     COCO.bbox := [3; 4] |} ] = true
  ∧ box_loop [ {| COCO.ann_id := 1; COCO.image_id := 1; COCO.category_id := 1;
                  COCO.bbox := [3; 4] |} ] [] [] = Raise IndexError.
Proof.
  split.
  - apply (proj1 (short_boxes_pass_validation_and_fail_retrieval _)).
    + discriminate.
    + repeat constructor.
  - apply (proj2 (short_boxes_pass_validation_and_fail_retrieval _)).
    apply Exists_cons_hd. simpl. lia.
Defined.

Lemma reshape4_concat {X : Type} (rows : list (list X)) :
  Forall (λ r, length r = 4%nat) rows → reshape4 (concat rows) = Ok rows.
Proof.
  induction 1 as [|r rows Hr _ IH]; [done|].
  destruct r as [|a [|b [|c [|d [|? ?]]]]]; try discriminate.
  simpl. by rewrite IH.
Qed.

(** X4. [.reshape(-1, 4)] undoes flattening and nothing else: it returns
    [rows] exactly when its input is the concatenation of [rows] and every
    row has four elements. *)
Theorem reshape4_concat_round_trip {X : Type} (l : list X) (rows : list (list X)) :
  reshape4 l = Ok rows ↔ l = concat rows ∧ Forall (λ r, length r = 4%nat) rows.
Proof.
  split.
  - intros Hrows. destruct (reshape4_Ok_length _ _ Hrows) as [Hlen Hcat].
    split; [done|].
    destruct (proj1 (reshape4_spec l) _ Hlen) as (rows' & Hrows' & _ & _ & Hall).
    rewrite Hrows in Hrows'. by injection Hrows' as <-.
  - intros [-> Hall]. by apply reshape4_concat.
Qed.

Lemma StronglySorted_le_NoDup_lt (l : list Z) :
  StronglySorted Z.le l → NoDup l → StronglySorted Z.lt l.
Proof.
  induction 1 as [|x l Hl IH Hx]; intros Hnd; [constructor|].
  apply NoDup_cons in Hnd as [Hnotin Hnd]. constructor; [by apply IH|].
  rewrite Forall_forall in Hx |- *. intros y Hy.
  specialize (Hx y Hy). assert (x ≠ y) by (intros ->; done). lia.
Qed.

Lemma StronglySorted_filter {X} (R : relation X) (P : X → Prop)
    `{∀ x, Decision (P x)} (l : list X) :
  StronglySorted R l → StronglySorted R (filter P l).
Proof.
  induction 1 as [|x l Hl IH Hx]; [constructor|].
  rewrite filter_cons. destruct (decide (P x)); [|done].
  constructor; [done|]. apply Forall_forall. intros y [_ Hy]%list_elem_of_filter.
  rewrite Forall_forall in Hx. by apply Hx.
Qed.

Lemma CocoDetection_ids_ascending {A : Type} (coco : COCO.t A) :
  StronglySorted Z.lt (CocoDetection.ids coco).
Proof.
  unfold CocoDetection.ids. apply StronglySorted_le_NoDup_lt.
  - apply StronglySorted_merge_sort; [intros x y z; lia|intros x y; lia].
  - rewrite merge_sort_Permutation. apply NoDup_elements.
Qed.

(** X5. The index list of [myCocoDetection] is strictly ascending, with or
    without validation: every id in it is an image id of the annotation
    file and none occurs twice. Without validation it holds every image id
    of the file. *)
Theorem myCocoDetection_ids_ascending {A : Type} `{Number A} {Image : Type}
    (root : string → option Image) (annFile : COCO.dataset A)
    (transform : option (Transform A Image)) (remove_invalid_data show : bool) :
  ∃ self,
    myCocoDetection.__init__ root annFile transform remove_invalid_data show = Ok self
    ∧ StronglySorted Z.lt (myCocoDetection.ids self)
    ∧ (∀ i, i ∈ myCocoDetection.ids self → i ∈ COCO.img_id <$> COCO.images annFile)
    ∧ (remove_invalid_data = false →
       ∀ i, i ∈ COCO.img_id <$> COCO.images annFile → i ∈ myCocoDetection.ids self).
Proof.
  eexists. split; [apply myCocoDetection_init|]. cbn [myCocoDetection.ids].
  split; [|split].
  - destruct remove_invalid_data; simpl.
    + apply StronglySorted_filter, CocoDetection_ids_ascending.
    + apply CocoDetection_ids_ascending.
  - intros i [Hi _]%elem_of_final_ids. by apply elem_of_CocoDetection_ids.
  - intros -> i Hi. simpl. by apply elem_of_CocoDetection_ids.
Qed.

(** X6. [_load_target] of [myCocoDetection] looks an image up by its id:
    when the annotation ids of the file are distinct it returns the
    annotations of that image, all of them and in the order of the file;
    and for an id that no annotation carries (an image without objects, or
    an id the file does not know) it returns the empty list, not an
    error. *)
Theorem load_target_is_image_annotations {A : Type} `{Number A} {Image : Type}
    (root : string → option Image) (annFile : COCO.dataset A)
    (transform : option (Transform A Image)) (remove_invalid_data show : bool)
    (self : myCocoDetection.t A Image) (id : Z) :
  myCocoDetection.__init__ root annFile transform remove_invalid_data show = Ok self →
  (NoDup (COCO.ann_id <$> COCO.annotations annFile) →
   myCocoDetection._load_target self id = Ok (anns_of_image annFile id))
  ∧ (Forall (λ a, COCO.image_id a ≠ id) (COCO.annotations annFile) →
     myCocoDetection._load_target self id = Ok []).
Proof.
  intros Hself. rewrite myCocoDetection_init in Hself. injection Hself as <-.
  unfold myCocoDetection._load_target. cbn [myCocoDetection.coco]. split.
  - intros Hnd. by apply loadAnns_getAnnIds_NoDup.
  - intros Hall. destruct (loadAnns_getAnnIds_total annFile id) as (anno & -> & Hlen).
    assert (anns_of_image annFile id = []) as Hnone.
    { unfold anns_of_image. induction Hall as [|a l Ha _ IH]; [done|].
      by rewrite filter_cons, decide_False. }
    rewrite Hnone in Hlen. by destruct anno.
Qed.

Lemma load_target_is_image_annotations_witness :
  ∃ self : myCocoDetection.t Z string,
    myCocoDetection.__init__ Samples.root Samples.two_images None false false = Ok self
    ∧ myCocoDetection._load_target self 2 = Ok [Samples.person2; Samples.speck2]
    ∧ myCocoDetection._load_target self 7 = Ok [].
Proof.
  eexists.
  match goal with |- ?i = Ok ?s ∧ _ =>
    assert (i = Ok s) as Hself by (vm_compute; reflexivity)
  end.
  split; [exact Hself|].
  destruct (load_target_is_image_annotations _ _ _ _ _ _ 2 Hself) as [Hsome _].
  destruct (load_target_is_image_annotations _ _ _ _ _ _ 7 Hself) as [_ Hnone].
  split.
  - apply Hsome. apply (bool_decide_unpack _). vm_compute. exact I.
  - apply Hnone. repeat constructor; discriminate.
Defined.

Section more_class_facts.
Context {A : Type} `{Number A} {Image F32 : Type} (FloatTensor : A → F32).

Lemma myCocoDetection_ids_have_images (coco : COCO.t A) (b : bool) (i : Z) :
  i ∈ final_ids coco b (CocoDetection.ids coco) → is_Some (COCO.imgs coco !! i).
Proof.
  intros [Hi _]%elem_of_final_ids. unfold CocoDetection.ids in Hi.
  rewrite merge_sort_Permutation, elem_of_elements in Hi. by apply elem_of_dom.
Qed.

Lemma load_image_known (root : string → option Image) (coco : COCO.t A) (id : Z)
    (info : COCO.image_info) :
  COCO.imgs coco !! id = Some info →
  _load_image root coco id = of_option IOError (root (COCO.file_name info)).
Proof.
  intros Hinfo. unfold _load_image, COCO.loadImgs. rewrite Hinfo. reflexivity.
Qed.
End more_class_facts.

(** X7. A validated [myCocoDetection] over integer coordinates never hands
    out an empty or a degenerate record: whenever [__getitem__] returns the
    untransformed tuple, there is at least one box, as many labels as
    boxes, and every box [[x1, y1, x2, y2]] has [x2 - x1 > 1] and
    [y2 - y1 > 1]. *)
Theorem validated_records_have_proper_boxes {Image F32 : Type} (FloatTensor : Z → F32)
    (root : string → option Image) (annFile : COCO.dataset Z)
    (transform : option (Transform Z Image)) (show : bool)
    (self : myCocoDetection.t Z Image) (index : Z)
    (image : Image) (bboxes : list (list Z)) (labels : list Z) :
  myCocoDetection.__init__ root annFile transform true show = Ok self →
  myCocoDetection.__getitem__ FloatTensor self index = Ok (Plain image bboxes labels) →
  bboxes ≠ []
  ∧ length bboxes = length labels
  ∧ Forall (λ box, ∃ x1 y1 x2 y2,
              box = [x1; y1; x2; y2] ∧ 1 < x2 - x1 ∧ 1 < y2 - y1) bboxes.
Proof.
  intros Hself Hget. rewrite myCocoDetection_init in Hself. injection Hself as <-.
  apply getitem_Ok in Hget as (idx & image0 & target & Hidx & _ & Htgt & Hfour & Hit).
  unfold myCocoDetection._load_target in Htgt.
  cbn [myCocoDetection.ids myCocoDetection.coco myCocoDetection.show
       myCocoDetection.transform] in *.
  assert ((Plain image bboxes labels : item Z Image F32)
          = Plain image0 ((λ obj, corner_box (COCO.bbox obj)) <$> target)
              (COCO.category_id <$> target)) as Heq.
  { cbv zeta in Hit. destruct show; [done|]. destruct transform as [tf|]; [|done].
    by destruct Hit as (? & ? & ? & _ & _ & _ & _ & [=]). }
  injection Heq as -> -> ->. clear Hit.
  apply py_index_Ok_elem, final_ids_valid, valid_image_true in Hidx
    as (anno & Hanno & Hvalid).
  unfold checked_view in Hanno. rewrite Htgt in Hanno. injection Hanno as <-.
  apply is_valid_data_true in Hvalid as [Hne Hall].
  split; [by destruct target|]. split; [by rewrite !length_fmap|].
  apply Forall_fmap, Forall_forall. intros obj Hobj.
  rewrite Forall_forall in Hall, Hfour.
  specialize (Hall obj Hobj). specialize (Hfour obj Hobj). simpl in Hfour.
  unfold compose. cbv beta.
  destruct (COCO.bbox obj) as [|x [|y [|w [|h rest]]]]; simpl in Hfour; try lia.
  simpl in Hall. destruct (w <=? 1) eqn:Hw; [done|].
  destruct (h <=? 1) eqn:Hh; [done|].
  exists x, y, (x + w), (y + h). simpl. split; [done|]. lia.
Qed.

Lemma validated_records_have_proper_boxes_witness :
  ∃ (self : myCocoDetection.t Z string) image bboxes labels,
    myCocoDetection.__init__ Samples.root Samples.two_images None true false = Ok self
    ∧ myCocoDetection.__getitem__ Samples.keep self 0 = Ok (Plain image bboxes labels)
    ∧ bboxes ≠ []
    ∧ length bboxes = length labels
    ∧ Forall (λ box, ∃ x1 y1 x2 y2,
                box = [x1; y1; x2; y2] ∧ 1 < x2 - x1 ∧ 1 < y2 - y1) bboxes.
Proof.
  eexists _, _, _, _.
  match goal with |- ?i = Ok ?s ∧ ?g = Ok ?it ∧ _ =>
    assert (i = Ok s) as Hself by (vm_compute; reflexivity);
    assert (g = Ok it) as Hget by (vm_compute; reflexivity)
  end.
  split; [exact Hself|]. split; [exact Hget|].
  exact (validated_records_have_proper_boxes Samples.keep _ _ _ _ _ _ _ _ _ Hself Hget).
Defined.

(** X8. Without a transform, or in [show] mode, [__getitem__] of a
    [myCocoDetection] that its constructor built can only fail in two
    ways: with [IndexError] (the index is out of range, or a box has fewer
    than four numbers) or with [IOError]; it never raises [KeyError],
    since every indexed id is an image of the store. It raises [IOError]
    exactly when the index is in range and the file of that image cannot
    be read, and what it returns is the untransformed tuple. *)
Theorem plain_getitem_failures {A : Type} `{Number A} {Image F32 : Type}
    (FloatTensor : A → F32) (root : string → option Image) (annFile : COCO.dataset A)
    (transform : option (Transform A Image)) (remove_invalid_data show : bool)
    (self : myCocoDetection.t A Image) (index : Z) :
  myCocoDetection.__init__ root annFile transform remove_invalid_data show = Ok self →
  show = true ∨ transform = None →
  (∀ e, myCocoDetection.__getitem__ FloatTensor self index = Raise e →
        e = IndexError ∨ e = IOError)
  ∧ (myCocoDetection.__getitem__ FloatTensor self index = Raise IOError
     ↔ ∃ idx info,
         py_index (myCocoDetection.ids self) index = Ok idx
         ∧ COCO.imgs (myCocoDetection.coco self) !! idx = Some info
         ∧ root (COCO.file_name info) = None)
  ∧ (∀ it, myCocoDetection.__getitem__ FloatTensor self index = Ok it →
           ∃ image bboxes labels, it = Plain image bboxes labels).
Proof.
  intros Hself Hmode. rewrite myCocoDetection_init in Hself. injection Hself as <-.
  unfold myCocoDetection.__getitem__, myCocoDetection._load_target.
  cbn [myCocoDetection.ids myCocoDetection.coco myCocoDetection.show
       myCocoDetection.transform myCocoDetection.root].
  set (coco := COCO.createIndex annFile).
  set (ids := final_ids coco remove_invalid_data (CocoDetection.ids coco)).
  unfold getitem.
  destruct (py_index ids index) as [idx|e0] eqn:Hidx; simpl.
  2:{ apply py_index_Raise in Hidx as ->. split; [intros e [= <-]; by left|].
      split; [|discriminate]. split; [discriminate|]. by intros (? & ? & [=] & _). }
  destruct (myCocoDetection_ids_have_images coco remove_invalid_data idx) as [info Hinfo].
  { by eapply py_index_Ok_elem. }
  rewrite (load_image_known root coco idx info Hinfo).
  destruct (root (COCO.file_name info)) as [image|] eqn:Hfile; simpl.
  2:{ split; [intros e [= <-]; by right|]. split; [|discriminate].
      split; [intros _; by exists idx, info|done]. }
  destruct (checked_view_total annFile idx) as [target Htgt].
  unfold checked_view in Htgt. fold coco in Htgt. rewrite Htgt. simpl.
  assert (¬ ∃ idx' info', Ok idx = Ok idx' ∧ COCO.imgs coco !! idx' = Some info'
                          ∧ root (COCO.file_name info') = None) as Hno.
  { intros (idx' & info' & [= <-] & Hinfo' & Hnone). congruence. }
  destruct (box_loop target [] []) as [[bboxes labels]|e0] eqn:Hloop; simpl.
  2:{ apply box_loop_Raise in Hloop as [_ ->]. split; [intros e [= <-]; by left|].
      split; [|discriminate]. split; [discriminate|done]. }
  assert ((if show then Ok (Plain image bboxes labels)
           else match transform return result (item A Image F32) with
                | Some tf =>
                    image ← on_image tf image; flat ← on_array tf bboxes;
                    bboxes ← reshape4 (flat : list A); labels ← tensor_int64 labels;
                    Ok (Sample idx image
                          {| boxes := map (map FloatTensor) bboxes; labels := labels |})
                | None => Ok (Plain image bboxes labels)
                end) = Ok (Plain image bboxes labels)) as ->
    by (destruct Hmode as [->| ->]; [done|by destruct show]).
  split; [discriminate|]. split; [split; [discriminate|done]|].
  intros it [= <-]. eauto.
Qed.

Lemma plain_getitem_failures_witness :
  ∃ self : myCocoDetection.t Z string,
    myCocoDetection.__init__ no_files Samples.one_image None true true = Ok self
    ∧ myCocoDetection.__getitem__ Samples.keep self 0 = Raise IOError.
Proof.
  eexists.
  match goal with |- ?i = Ok ?s ∧ _ =>
    assert (i = Ok s) as Hself by (vm_compute; reflexivity)
  end.
  split; [exact Hself|].
  apply (proj1 (proj2 (plain_getitem_failures Samples.keep _ _ _ _ _ _ 0 Hself
                         (or_introl eq_refl)))).
  exists 1, {| COCO.img_id := 1; COCO.file_name := "000001.jpg" |}.
  split; [reflexivity|]. split; [vm_compute; reflexivity|reflexivity].
Defined.

(** X9. With a transform that returns the box array element by element, as
    [ToTensor] does, the record of the transform branch is
    [(idx, image, targets)] with the id of the indexed image, the corner
    boxes of its annotations cast to the float type, one row per
    annotation and in their order, and their category ids as labels. Both
    classes run this body, each with its own [_load_target]. *)
Theorem elementwise_transform_keeps_boxes {A : Type} `{Number A} {Image F32 : Type}
    (FloatTensor : A → F32) (ids : list Z) (root : string → option Image)
    (coco : COCO.t A) (tf : Transform A Image)
    (_load_target : Z → result (list (COCO.annotation A))) (index idx : Z)
    (image image' : Image) (target : list (COCO.annotation A)) :
  py_index ids index = Ok idx →
  _load_image root coco idx = Ok image →
  _load_target idx = Ok target →
  Forall (λ obj, 4 ≤ length (COCO.bbox obj))%nat target →
  Forall (λ z, - 2 ^ 63 ≤ z < 2 ^ 63) (COCO.category_id <$> target) →
  on_image tf image = Ok image' →
  on_array tf ((λ obj, corner_box (COCO.bbox obj)) <$> target)
  = Ok (concat ((λ obj, corner_box (COCO.bbox obj)) <$> target)) →
  getitem FloatTensor ids root coco (Some tf) false _load_target index
  = Ok (Sample idx image'
          {| boxes := (λ obj, FloatTensor <$> corner_box (COCO.bbox obj)) <$> target;
             labels := COCO.category_id <$> target |}).
Proof.
  intros Hidx Himg Htgt Hfour Hrng Him' Hflat. apply getitem_Ok.
  exists idx, image, target. repeat split; try done. cbv zeta.
  eexists image', _, _. split; [done|]. split; [exact Hflat|].
  split; [|split; [done|]].
  - apply reshape4_concat, Forall_fmap, Forall_forall. intros obj Hobj.
    rewrite Forall_forall in Hfour. specialize (Hfour obj Hobj). simpl.
    by destruct (COCO.bbox obj) as [|x [|y [|w [|h rest]]]]; simpl in *; try lia.
  - f_equal. f_equal. by rewrite <- list_fmap_compose.
Qed.

Lemma elementwise_transform_keeps_boxes_witness :
  getitem Samples.keep [1] Samples.root (COCO.createIndex Samples.one_image)
    (Some Samples.elementwise) false
    (λ id, COCO.loadAnns (COCO.createIndex Samples.one_image)
             (COCO.getAnnIds (COCO.createIndex Samples.one_image) id)) 0
  = Ok (Sample 1 "000001.jpg"
          {| boxes := (λ obj, Samples.keep <$> corner_box (COCO.bbox obj))
                        <$> [Samples.person1; Samples.dog1];
             labels := COCO.category_id <$> [Samples.person1; Samples.dog1] |}).
Proof.
  apply (elementwise_transform_keeps_boxes Samples.keep [1] Samples.root
           (COCO.createIndex Samples.one_image) Samples.elementwise
           (λ id, COCO.loadAnns (COCO.createIndex Samples.one_image)
                    (COCO.getAnnIds (COCO.createIndex Samples.one_image) id))
           0 1 "000001.jpg" "000001.jpg" [Samples.person1; Samples.dog1]).
  - reflexivity.
  - vm_compute; reflexivity.
  - vm_compute; reflexivity.
  - repeat constructor.
  - repeat constructor; discriminate.
  - reflexivity.
  - reflexivity.
Defined.

(** X10. In [myCocolimit], with distinct annotation ids in the file, every
    indexed image has something to retrieve, validated or not:
    [_load_target] returns a non-empty list for it, made of annotations of
    that very image whose category is among the resolved ids. *)
Theorem restricted_records_have_annotations {A : Type} `{Number A} {Image : Type}
    (root : string → option Image) (annFile : COCO.dataset A)
    (transform : option (Transform A Image)) (class_list : list string)
    (remove_invalid_data show : bool) (self : myCocolimit.t A Image) (idx : Z) :
  myCocolimit.__init__ root annFile transform class_list remove_invalid_data show
  = Ok self →
  NoDup (COCO.ann_id <$> COCO.annotations annFile) →
  idx ∈ myCocolimit.ids self →
  ∃ target,
    myCocolimit._load_target self idx = Ok target
    ∧ target ≠ []
    ∧ Forall (λ ann, COCO.image_id ann = idx
                     ∧ COCO.category_id ann ∈ myCocolimit.catIds self) target.
Proof.
  intros Hself Hnd Hidx. rewrite myCocolimit_init in Hself. injection Hself as <-.
  cbn [myCocolimit.ids myCocolimit.catIds] in *.
  apply elem_of_final_ids in Hidx as [Hpre _].
  apply elem_of_concat_fmap in Hpre as (id & Hid & Hi).
  apply elem_of_getImgIds in Hi as (a & Ha & Hcat & Himg).
  eexists. split.
  { apply myCocolimit_load_target. cbn [myCocolimit.coco]. unfold checked_view.
    by apply loadAnns_getAnnIds_NoDup. }
  cbn [myCocolimit.catIds]. split.
  - intros Hnil.
    assert (a ∈ filter (λ ann, COCO.category_id ann
                                ∈ COCO.getCatIds (COCO.createIndex annFile) class_list)
                  (anns_of_image annFile idx)) as Hin.
    { apply list_elem_of_filter. split; [by rewrite Hcat|].
      by apply list_elem_of_filter. }
    rewrite Hnil in Hin. by apply elem_of_nil in Hin.
  - apply Forall_forall. intros ann [Hc Hann]%list_elem_of_filter.
    by apply list_elem_of_filter in Hann as [? _].
Qed.

Lemma restricted_records_have_annotations_witness :
  ∃ (self : myCocolimit.t Z string) target,
    myCocolimit.__init__ Samples.root Samples.two_images None ["cat"] false false
    = Ok self
    ∧ myCocolimit._load_target self 2 = Ok target
    ∧ target ≠ []
    ∧ Forall (λ ann, COCO.image_id ann = 2
                     ∧ COCO.category_id ann ∈ myCocolimit.catIds self) target.
Proof.
  eexists.
  match goal with |- ∃ target, ?i = Ok ?s ∧ _ =>
    assert (i = Ok s) as Hself by (vm_compute; reflexivity)
  end.
  destruct (restricted_records_have_annotations _ _ _ _ _ _ _ 2 Hself)
    as (target & Hrest).
  - apply (bool_decide_unpack _). vm_compute. exact I.
  - simpl. left.
  - exists target. split; [exact Hself|exact Hrest].
Defined.

(** * Batches *)

Section collate_facts.
Context {X : Type}.
Implicit Types (batch : list (list X)) (column record : list X).

Lemma mapM_head_Some batch column :
  mapM head batch = Some column ↔ Forall2 (λ r x, r !! 0%nat = Some x) batch column.
Proof.
  rewrite mapM_Some.
  split; intros Hf; (eapply Forall2_impl; [exact Hf|]); intros r x; by destruct r.
Qed.

Lemma zip_columns_lookup (n : nat) batch (j : nat) column :
  zip_columns n batch !! j = Some column
  ↔ (j < n)%nat ∧ Forall2 (λ r x, r !! j = Some x) batch column.
Proof.
  revert batch j. induction n as [|n IH]; intros batch j; simpl.
  { split; [done|]. intros [? _]. lia. }
  destruct (mapM head batch) as [first|] eqn:Hfirst.
  - apply mapM_head_Some in Hfirst. destruct j as [|j]; simpl.
    + split.
      * intros [= <-]. split; [lia|done].
      * intros [_ Hcol]. f_equal.
        revert Hcol. clear -Hfirst. revert column.
        induction Hfirst as [|r x batch first Hx _ IHf]; intros column Hcol.
        -- by apply Forall2_nil_inv_l in Hcol.
        -- apply Forall2_cons_inv_l in Hcol as (y & column' & Hy & Hcol & ->).
           f_equal; [congruence|by apply IHf].
    + rewrite IH, Forall2_fmap_l. split.
      * intros [Hj Hcol]. split; [lia|].
        eapply Forall2_impl; [exact Hcol|]. intros r x. by destruct r.
      * intros [Hj Hcol]. split; [lia|].
        eapply Forall2_impl; [exact Hcol|]. intros r x. by destruct r.
  - split; [done|]. intros [_ Hcol]. exfalso.
    assert (∃ first, Forall2 (λ r x, r !! 0%nat = Some x) batch first) as [first Hf].
    { clear -Hcol. induction Hcol as [|r x batch column Hx _ [first IHc]].
      - by exists [].
      - destruct r as [|x0 r]; [done|]. exists (x0 :: first). by constructor. }
    apply mapM_head_Some in Hf. congruence.
Qed.

Lemma collate_fn_lookup batch (j : nat) column :
  collate_fn batch !! j = Some column
  ↔ batch ≠ [] ∧ Forall2 (λ r x, r !! j = Some x) batch column.
Proof.
  destruct batch as [|record batch]; simpl.
  { split; [done|by intros [? _]]. }
  change (zip_columns (length record) (record :: batch) !! j = Some column
          ↔ record :: batch ≠ [] ∧ Forall2 (λ r x, r !! j = Some x) (record :: batch) column).
  rewrite zip_columns_lookup. split.
  - intros [_ Hcol]. done.
  - intros [_ Hcol]. split; [|done].
    apply Forall2_cons_inv_l in Hcol as (x & ? & Hx & _ & _).
    by eapply lookup_lt_Some.
Qed.
End collate_facts.

(** X11. [collate_fn] transposes the batch and stops with the shortest
    record: it has a [j]-th tuple exactly when the batch is not empty and
    every record has a [j]-th component, and that tuple lists the [j]-th
    components of the records in the order of the batch. In particular an
    empty batch gives the empty tuple. *)
Theorem collate_fn_transposes {X : Type} (batch : list (list X)) :
  (∀ (j : nat) (column : list X),
     collate_fn batch !! j = Some column
     ↔ batch ≠ [] ∧ Forall2 (λ record x, record !! j = Some x) batch column)
  ∧ (∀ record, record ∈ batch → (length (collate_fn batch) ≤ length record)%nat)
  ∧ (batch = [] → collate_fn batch = []).
Proof.
  split; [intros j column; apply collate_fn_lookup|]. split; [|by intros ->].
  intros record Hrecord.
  destruct (decide (length (collate_fn batch) ≤ length record)%nat) as [|Hgt]; [done|].
  destruct (lookup_lt_is_Some_2 (collate_fn batch) (length record)) as [column Hc]; [lia|].
  apply collate_fn_lookup in Hc as [_ Hc].
  apply list_elem_of_lookup in Hrecord as [i Hi].
  destruct (Forall2_lookup_l _ _ _ _ _ Hc Hi) as (x & _ & Hx).
  apply lookup_lt_Some in Hx. lia.
Qed.

(** X12. On a batch of at least one record, all with the same positive
    number of components, [collate_fn] returns that number of tuples, each
    as long as the batch, and collating the result again gives the batch
    back. *)
Theorem collate_fn_involutive {X : Type} (batch : list (list X)) (m : nat) :
  batch ≠ [] → (0 < m)%nat → Forall (λ record, length record = m) batch →
  length (collate_fn batch) = m
  ∧ Forall (λ column, length column = length batch) (collate_fn batch)
  ∧ collate_fn (collate_fn batch) = batch.
Proof.
  intros Hne Hm Hrect.
  assert (∀ j, (j < m)%nat → ∃ column,
            Forall2 (λ r x, r !! j = Some x) batch column) as Hcol.
  { intros j Hj. clear Hne. induction Hrect as [|r batch Hr _ [column IH]].
    - by exists [].
    - destruct (lookup_lt_is_Some_2 r j) as [x Hx]; [lia|].
      exists (x :: column). by constructor. }
  assert (length (collate_fn batch) = m) as Hlen.
  { destruct (decide (length (collate_fn batch) < m)%nat) as [Hlt|Hge].
    - destruct (Hcol _ Hlt) as [column Hc].
      assert (collate_fn batch !! length (collate_fn batch) = Some column) as Hsome
        by by apply collate_fn_lookup.
      apply lookup_lt_Some in Hsome. lia.
    - destruct (decide (length (collate_fn batch) = m)) as [|Hgt]; [done|].
      destruct (lookup_lt_is_Some_2 (collate_fn batch) m) as [column Hc]; [lia|].
      apply collate_fn_lookup in Hc as [_ Hc]. destruct batch as [|r batch]; [done|].
      apply Forall2_cons_inv_l in Hc as (x & ? & Hx & _ & _).
      apply lookup_lt_Some in Hx. apply Forall_cons in Hrect as [Hr _]. lia. }
  assert (Forall (λ column, length column = length batch) (collate_fn batch)) as Hcols.
  { apply Forall_forall. intros column [j Hj]%list_elem_of_lookup.
    apply collate_fn_lookup in Hj as [_ Hj]. symmetry. by eapply Forall2_length. }
  split; [done|]. split; [done|].
  apply list_eq. intros i. destruct (batch !! i) as [r|] eqn:Hi.
  - apply collate_fn_lookup. split; [by destruct (collate_fn batch); simpl in *; [lia|]|].
    apply Forall2_same_length_lookup. split.
    { rewrite Hlen. rewrite Forall_forall in Hrect. symmetry.
      apply Hrect. by eapply list_elem_of_lookup_2. }
    intros j column x Hj Hx. apply collate_fn_lookup in Hj as [_ Hj].
    destruct (Forall2_lookup_l _ _ _ _ _ Hj Hi) as (y & Hy & Hry). congruence.
  - destruct (collate_fn (collate_fn batch) !! i) as [r|] eqn:Hr; [|done].
    apply collate_fn_lookup in Hr as [Hne' Hr].
    destruct (collate_fn batch) as [|column cols] eqn:Hc; [done|].
    apply Forall2_cons_inv_l in Hr as (x & ? & Hx & _ & _).
    apply Forall_cons in Hcols as [Hcl _]. apply lookup_lt_Some in Hx.
    apply lookup_ge_None in Hi. lia.
Qed.

Lemma collate_fn_involutive_witness :
  length (collate_fn [[1; 2; 3]; [4; 5; 6]]) = 3%nat
  ∧ Forall (λ column, length column = length [[1; 2; 3]; [4; 5; 6]])
      (collate_fn [[1; 2; 3]; [4; 5; 6]])
  ∧ collate_fn (collate_fn [[1; 2; 3]; [4; 5; 6]]) = [[1; 2; 3]; [4; 5; 6]].
Proof.
  apply (collate_fn_involutive [[1; 2; 3]; [4; 5; 6]] 3).
  - discriminate.
  - lia.
  - repeat constructor.
Defined.

(** * Showing records *)

Lemma CLASSES_lookup (label : Z) :
  0 ≤ label < 91 → ∃ name, py_index CLASSES label = Ok name.
Proof.
  intros Hl. rewrite py_index_nonneg by lia.
  destruct (lookup_lt_is_Some_2 CLASSES (Z.to_nat label)) as [name ->];
    [change (length CLASSES) with 91%nat; lia|].
  by exists name.
Qed.

Section show_facts.
Context {A Image F32 : Type} (sub32 : F32 → F32 → F32) (permute : Image → result Image).

Lemma draw_boxes_Ok (boxes : list (list F32)) (labels : list Z)
    (rects rects' : list (F32 * F32 * F32 * F32))
    (texts texts' : list (F32 * F32 * string)) :
  draw_boxes sub32 boxes labels rects texts = Ok (rects', texts') →
  ∃ new_rects new_texts,
    rects' = rects ++ new_rects ∧ texts' = texts ++ new_texts
    ∧ Forall2 (λ box rect, ∃ x1 y1 x2 y2 rest,
                 box = x1 :: y1 :: x2 :: y2 :: rest
                 ∧ rect = (x1, y1, sub32 x2 x1, sub32 y2 y1))
        (take (length labels) boxes) new_rects
    ∧ Forall2 (λ box text, ∃ x1 y1 rest name,
                 box = x1 :: y1 :: rest ∧ text = (x1, y1, name))
        (take (length labels) boxes) new_texts
    ∧ Forall2 (λ label text, py_index CLASSES label = Ok text.2)
        (take (length boxes) labels) new_texts.
Proof.
  revert labels rects texts.
  induction boxes as [|box boxes IH]; intros labels rects texts.
  { destruct labels; simpl; intros [= <- <-]; exists [], [];
      rewrite !app_nil_r, ?take_nil; repeat split; constructor. }
  destruct labels as [|label labels].
  { simpl. intros [= <- <-]. exists [], []. rewrite !app_nil_r.
    repeat split; constructor. }
  cbn [draw_boxes]. rewrite !(py_index_nonneg box) by lia.
  destruct box as [|x1 [|y1 [|x2 [|y2 rest]]]]; simpl; try discriminate.
  destruct (py_index CLASSES label) as [name|] eqn:Hname; simpl; [|discriminate].
  intros (new_rects & new_texts & -> & -> & Hr & Ht & Hl)%IH.
  exists ((x1, y1, sub32 x2 x1, sub32 y2 y1) :: new_rects), ((x1, y1, name) :: new_texts).
  rewrite <- !app_assoc. repeat split; constructor; eauto 10.
Qed.
End show_facts.

(** X13. [coco_show] raises [ValueError] before it loads anything unless
    the grid has a positive number of rows and of columns and no more cells
    than the dataset has records: the default grid of two by two needs a
    dataset of four records at least. *)
Theorem coco_show_needs_enough_records {A Image F32 : Type}
    (sub32 : F32 → F32 → F32) (permute : Image → result Image)
    (len : Z) (getitem : Z → result (item A Image F32))
    (shape : Z * Z) (rng : Z → Z → list Z) :
  ¬ (0 < shape.1 ∧ 0 < shape.2 ∧ shape.1 * shape.2 ≤ len) →
  coco_show sub32 permute len getitem shape rng = Raise ValueError.
Proof.
  intros Hbad. unfold coco_show, sample, subplots. cbv zeta.
  destruct (decide (0 ≤ shape.1 * shape.2 ≤ len)) as [Hsize|]; [|done]. simpl.
  rewrite decide_False; [done|]. intros [? ?]. apply Hbad. lia.
Qed.

Lemma coco_show_needs_enough_records_witness :
  ∃ self : myCocoDetection.t Z string,
    myCocoDetection.__init__ Samples.root Samples.two_images (Some Samples.elementwise)
      false false = Ok self
    ∧ coco_show Z.sub (λ image, Ok image) (myCocoDetection.__len__ self)
        (myCocoDetection.__getitem__ Samples.keep self) (2, 2) (λ n k, seqZ 0 k)
      = Raise ValueError.
Proof.
  eexists. split; [vm_compute; reflexivity|].
  apply (coco_show_needs_enough_records Z.sub (λ image, Ok image)).
  vm_compute. intros (_ & _ & Hle). by apply Hle.
Defined.

(** X14. [coco_show] cannot display a dataset that hands out untransformed
    tuples. If [sample] returns as many numbers as it is asked for, then on
    a [myCocoDetection] in [show] mode or without a transform [coco_show]
    returns no figure, whatever the grid: it raises [ValueError] for the
    grid, or whatever [__getitem__] raises for the first number, or
    [AttributeError] on the first record. *)
Theorem coco_show_rejects_untransformed {A : Type} `{Number A} {Image F32 : Type}
    (FloatTensor : A → F32) (sub32 : F32 → F32 → F32) (permute : Image → result Image)
    (self : myCocoDetection.t A Image) (shape : Z * Z) (rng : Z → Z → list Z) :
  (∀ n k, length (rng n k) = Z.to_nat k) →
  myCocoDetection.show self = true ∨ myCocoDetection.transform self = None →
  ∃ e, coco_show sub32 permute (myCocoDetection.__len__ self)
         (myCocoDetection.__getitem__ FloatTensor self) shape rng = Raise e
       ∧ (e = ValueError ∨ e = AttributeError
          ∨ ∃ num, myCocoDetection.__getitem__ FloatTensor self num = Raise e).
Proof.
  intros Hrng Hmode. unfold coco_show, sample, subplots. cbv zeta.
  destruct (decide (0 ≤ shape.1 * shape.2 ≤ _)) as [Hsize|]; [|eauto]. simpl.
  destruct (decide (0 < shape.1 ∧ 0 < shape.2)) as [[Hr Hc]|]; [|eauto]. simpl.
  specialize (Hrng (myCocoDetection.__len__ self) (shape.1 * shape.2)).
  destruct (rng _ _) as [|num nums]; [simpl in Hrng; nia|].
  cbn [show_records].
  destruct (myCocoDetection.__getitem__ FloatTensor self num) as [it|e] eqn:Hget; simpl.
  2:{ exists e. split; [done|]. right. right. by exists num. }
  assert (∃ image bboxes labels, it = Plain image bboxes labels)
    as (image & bboxes & labels & ->).
  { apply getitem_Ok in Hget as (idx & image & target & _ & _ & _ & _ & Hit).
    cbv zeta in Hit. destruct Hmode as [Hs|Ht].
    - rewrite Hs in Hit. eauto.
    - rewrite Ht in Hit. destruct (myCocoDetection.show self); eauto. }
  simpl. eauto.
Qed.

Lemma coco_show_rejects_untransformed_witness :
  ∃ (self : myCocoDetection.t Z string) e,
    myCocoDetection.__init__ Samples.root Samples.two_images None false true = Ok self
    ∧ coco_show Z.sub (λ image, Ok image) (myCocoDetection.__len__ self)
        (myCocoDetection.__getitem__ Samples.keep self) (1, 2) (λ n k, seqZ 0 k)
      = Raise e
    ∧ (e = ValueError ∨ e = AttributeError
       ∨ ∃ num, myCocoDetection.__getitem__ Samples.keep self num = Raise e).
Proof.
  eexists.
  match goal with |- ∃ e, ?i = Ok ?s ∧ _ =>
    assert (i = Ok s) as Hself by (vm_compute; reflexivity)
  end.
  match type of Hself with _ = Ok ?s =>
    destruct (coco_show_rejects_untransformed Samples.keep Z.sub (λ image, Ok image)
                s (1, 2) (λ n k, seqZ 0 k)
                (λ n k, length_seqZ 0 k) (or_introl eq_refl)) as (e & He)
  end.
  exists e. split; [exact Hself|exact He].
Defined.

(** X15. For a transformed record [coco_show] draws one rectangle and one
    caption for each pair of [zip(boxes, labels)], so as many as the shorter
    of the two: surplus boxes or labels are dropped without notice. The
    rectangle of a box [[x1, y1, x2, y2]] has the corner [(x1, y1)], the
    width [x2 - x1] and the height [y2 - y1]; its caption stands at
    [(x1, y1)] and reads [CLASSES[label]]. *)
Theorem show_record_draws_zipped_pairs {A Image F32 : Type}
    (sub32 : F32 → F32 → F32) (permute : Image → result Image)
    (image_id : Z) (image : Image) (target : Target F32) (p : panel Image F32) :
  show_record (A := A) sub32 permute (Sample image_id image target) = Ok p →
  title p = image_id
  ∧ permute image = Ok (shown p)
  ∧ length (rectangles p) = (length (boxes target) `min` length (labels target))%nat
  ∧ length (captions p) = (length (boxes target) `min` length (labels target))%nat
  ∧ Forall2 (λ box rect, ∃ x1 y1 x2 y2 rest,
               box = x1 :: y1 :: x2 :: y2 :: rest
               ∧ rect = (x1, y1, sub32 x2 x1, sub32 y2 y1))
      (take (length (labels target)) (boxes target)) (rectangles p)
  ∧ Forall2 (λ box text, ∃ x1 y1 rest name,
               box = x1 :: y1 :: rest ∧ text = (x1, y1, name))
      (take (length (labels target)) (boxes target)) (captions p)
  ∧ Forall2 (λ label text, py_index CLASSES label = Ok text.2)
      (take (length (boxes target)) (labels target)) (captions p).
Proof.
  unfold show_record.
  intros (image' & Himage & ([rects texts] & Hdraw & [= <-])%bind_Ok)%bind_Ok.
  apply draw_boxes_Ok in Hdraw as (new_rects & new_texts & -> & -> & Hr & Ht & Hl).
  simpl. split; [done|]. split; [done|].
  pose proof (Forall2_length _ _ _ Hr) as Hlr.
  pose proof (Forall2_length _ _ _ Ht) as Hlt.
  rewrite length_take in Hlr, Hlt. repeat split; try done; lia.
Qed.

Lemma show_record_draws_zipped_pairs_witness :
  ∃ p : panel string Z,
    show_record (A := Z) Z.sub (λ image, Ok image)
      (Sample 1 "000001.jpg" {| boxes := [[10; 10; 60; 90]]; labels := [1; 18] |}) = Ok p
    ∧ title p = 1
    ∧ length (rectangles p) = 1%nat
    ∧ length (captions p) = 1%nat.
Proof.
  eexists.
  match goal with |- ?r = Ok ?p ∧ _ =>
    assert (r = Ok p) as Hshow by (vm_compute; reflexivity)
  end.
  split; [exact Hshow|].
  destruct (show_record_draws_zipped_pairs _ _ _ _ _ _ Hshow)
    as (Htitle & _ & Hrects & Htexts & _).
  split; [exact Htitle|]. split; [exact Hrects|exact Htexts].
Defined.



(** * The training scripts *)

Lemma py_index_last {X} (l : list X) (x : X) : py_index (l ++ [x]) (-1) = Ok x.
Proof.
  unfold py_index. cbv zeta. rewrite length_app. simpl.
  rewrite decide_True by lia.
  replace (Z.to_nat (-1 + Z.of_nat (length l + 1))) with (length l) by lia.
  by rewrite list_lookup_middle.
Qed.

Lemma odd_items_app_even {X} (l k : list X) :
  Nat.Even (length l) → odd_items (l ++ k) = odd_items l ++ odd_items k.
Proof.
  intros [n Hn]. revert l Hn. induction n as [|n IH]; intros l Hn.
  - by destruct l.
  - destruct l as [|x [|y l]]; simpl in Hn; try lia.
    simpl. f_equal. apply IH. lia.
Qed.

Section training_facts.
Context {R M : Type}.
Context (fsum : list R → R) (fdiv : R → Z → R) (ratio : Z → Z → R)
  (gtb : R → R → bool) (zero : R).
Implicit Types (dataloader : list (batch R)) (s : run R M).

Lemma total_nonneg (f : batch R → Z) dataloader :
  Forall (λ b, 0 < f b) dataloader → 0 ≤ total f dataloader.
Proof. induction 1 as [|b l Hb _ IH]; simpl; lia. Qed.

Lemma total_pos (f : batch R → Z) dataloader :
  dataloader ≠ [] → Forall (λ b, 0 < f b) dataloader → 0 < total f dataloader.
Proof.
  intros Hne Hall. destruct Hall as [|b l Hb Hl]; [done|].
  simpl. pose proof (total_nonneg f l Hl). lia.
Qed.

Lemma train_loop_Ok (n : Z) dataloader (i : Z) (iter_loss : list R)
    (corrects data_size : Z) :
  Forall (λ b, 0 < batch_size b) dataloader → 0 ≤ data_size →
  train_loop n dataloader i iter_loss corrects data_size
  = Ok (iter_loss ++ (batch_loss <$> dataloader),
        corrects + total batch_corrects dataloader,
        data_size + total batch_size dataloader).
Proof.
  intros Hall. revert i iter_loss corrects data_size.
  induction Hall as [|b l Hb _ IH]; intros i iter_loss corrects data_size Hds.
  - simpl. by rewrite app_nil_r, !Z.add_0_r.
  - cbn [train_loop].
    assert (print_stats (data_size + batch_size b) = Ok ()) as Hprint
      by (unfold print_stats; rewrite decide_False by lia; done).
    rewrite Hprint.
    assert ((if decide ((i + 1) `mod` 40 = 0 ∨ i + 1 = n) then Ok () else Ok ())
            = (Ok () : result unit)) as -> by by case_decide.
    cbn [mbind result_bind]. rewrite IH by lia. rewrite fmap_cons.
    unfold total. cbn [foldr]. fold (total batch_corrects l) (total batch_size l).
    rewrite <- app_assoc. do 2 f_equal; [f_equal|]; lia.
Qed.

Lemma test_loop_spec dataloader (i : option Z) (next : Z) (iter_loss : list R)
    (corrects data_size : Z) :
  test_loop dataloader i next iter_loss corrects data_size
  = (match dataloader with
     | [] => i
     | _ => Some (next + Z.of_nat (length dataloader) - 1)
     end,
     iter_loss ++ (batch_loss <$> dataloader),
     corrects + total batch_corrects dataloader,
     data_size + total batch_size dataloader).
Proof.
  revert i next iter_loss corrects data_size.
  induction dataloader as [|b l IH]; intros i next iter_loss corrects data_size.
  - simpl. by rewrite app_nil_r, !Z.add_0_r.
  - cbn [test_loop]. rewrite IH. rewrite fmap_cons.
    unfold total. cbn [foldr]. fold (total batch_corrects l) (total batch_size l).
    rewrite <- app_assoc. cbn [app].
    rewrite !Z.add_assoc. do 3 f_equal.
    destruct l; cbn [length]; f_equal; lia.
Qed.
End training_facts.

(** X17. [train] on an empty data loader raises [ZeroDivisionError]. On a
    loader that yields at least one batch, and only batches with images in
    them, it returns the list of two numbers [[loss, accuracy]]: the sum of
    the batch losses over the number of images seen, and the number of
    correct predictions over the number of images seen. *)
Theorem train_statistics {R : Type} (fsum : list R → R) (fdiv : R → Z → R)
    (ratio : Z → Z → R) (dataloader : list (batch R)) :
  (dataloader = [] → train fsum fdiv ratio dataloader = Raise ZeroDivisionError)
  ∧ (dataloader ≠ [] → Forall (λ b, 0 < batch_size b) dataloader →
     train fsum fdiv ratio dataloader
     = Ok [fdiv (fsum (batch_loss <$> dataloader)) (total batch_size dataloader);
           ratio (total batch_corrects dataloader) (total batch_size dataloader)]).
Proof.
  split; [by intros ->|]. intros Hne Hall. unfold train.
  rewrite train_loop_Ok by done. simpl.
  pose proof (total_pos batch_size dataloader Hne Hall).
  rewrite decide_False by lia. done.
Qed.

Lemma train_statistics_witness :
  train (foldr Z.add 0) Z.div Z.div
    [ {| batch_size := 4; batch_loss := 8; batch_corrects := 3 |};
      {| batch_size := 2; batch_loss := 4; batch_corrects := 2 |} ]
  = Ok [2; 0]
  ∧ train (foldr Z.add 0) Z.div Z.div [] = Raise ZeroDivisionError.
Proof.
  split.
  - rewrite (proj2 (train_statistics (foldr Z.add 0) Z.div Z.div _)).
    + reflexivity.
    + discriminate.
    + repeat constructor.
  - apply (proj1 (train_statistics (foldr Z.add 0) Z.div Z.div [])). reflexivity.
Defined.

(** X18. [test] returns the same two statistics as [train] on a loader that
    yields at least one batch, and only batches with images in them; on an
    empty loader it fails differently: the index of its final [print] was
    never bound, so it raises [UnboundLocalError] before it divides. *)
Theorem test_statistics {R : Type} (fsum : list R → R) (fdiv : R → Z → R)
    (ratio : Z → Z → R) (dataloader : list (batch R)) :
  (dataloader = [] → test fsum fdiv ratio dataloader = Raise UnboundLocalError)
  ∧ (dataloader ≠ [] → Forall (λ b, 0 < batch_size b) dataloader →
     test fsum fdiv ratio dataloader
     = Ok [fdiv (fsum (batch_loss <$> dataloader)) (total batch_size dataloader);
           ratio (total batch_corrects dataloader) (total batch_size dataloader)]
     ∧ test fsum fdiv ratio dataloader = train fsum fdiv ratio dataloader).
Proof.
  split; [by intros ->|]. intros Hne Hall.
  assert (test fsum fdiv ratio dataloader
          = Ok [fdiv (fsum (batch_loss <$> dataloader)) (total batch_size dataloader);
                ratio (total batch_corrects dataloader) (total batch_size dataloader)])
    as Htest.
  { unfold test. rewrite test_loop_spec.
    pose proof (total_pos batch_size dataloader Hne Hall).
    destruct dataloader as [|b l]; [done|]. simpl of_option. cbn [mbind result_bind].
    unfold print_stats. rewrite !decide_False by lia. done. }
  split; [done|]. rewrite Htest. symmetry.
  unfold train. rewrite train_loop_Ok by done. simpl.
  pose proof (total_pos batch_size dataloader Hne Hall).
  rewrite decide_False by lia. done.
Qed.

Lemma test_statistics_witness :
  test (foldr Z.add 0) Z.div Z.div
    [ {| batch_size := 4; batch_loss := 8; batch_corrects := 3 |} ]
  = Ok [2; 0]
  ∧ test (foldr Z.add 0) Z.div Z.div [] = Raise UnboundLocalError.
Proof.
  split.
  - rewrite (proj1 (proj2 (test_statistics (foldr Z.add 0) Z.div Z.div
                              [ {| batch_size := 4; batch_loss := 8;
                                   batch_corrects := 3 |} ])
                       ltac:(discriminate) ltac:(repeat constructor))).
    reflexivity.
  - apply (proj1 (test_statistics (foldr Z.add 0) Z.div Z.div [])). reflexivity.
Defined.

(** X19. After [test_result += test(...)], the value that the epoch loop
    reads as [test_result[1::2][-1]] is the accuracy just appended when
    [test_result] held an even number of entries before, as it does when
    it was only ever filled by the loop; on a list of odd length it is the
    loss just appended. *)
Theorem latest_accuracy_read {X : Type} (test_result : list X) (loss acc : X) :
  (Nat.Even (length test_result) →
   py_index (odd_items (test_result ++ [loss; acc])) (-1) = Ok acc)
  ∧ (Nat.Odd (length test_result) →
     py_index (odd_items (test_result ++ [loss; acc])) (-1) = Ok loss).
Proof.
  split.
  - intros Heven. rewrite odd_items_app_even by done. simpl. apply py_index_last.
  - intros [n Hn].
    destruct (decide (test_result = [])) as [->|Hne]; [simpl in Hn; lia|].
    destruct (exists_last Hne) as (front & x & ->).
    rewrite length_app in Hn. simpl in Hn.
    rewrite <- app_assoc. rewrite odd_items_app_even by (exists n; lia).
    simpl. apply py_index_last.
Qed.

Lemma latest_accuracy_read_witness :
  py_index (odd_items ([5; 6] ++ [7; 8])) (-1) = Ok 8
  ∧ py_index (odd_items ([5] ++ [7; 8])) (-1) = Ok 7.
Proof.
  split.
  - apply (proj1 (latest_accuracy_read [5; 6] 7 8)). exists 1%nat. reflexivity.
  - apply (proj2 (latest_accuracy_read [5] 7 8)). exists 0%nat. reflexivity.
Defined.

Section epoch_facts.
Context {R M : Type}.
Context (fsum : list R → R) (fdiv : R → Z → R) (ratio : Z → Z → R)
  (gtb : R → R → bool) (zero : R).
Context (state_dict : Z → M) (train_loader test_loader : Z → list (batch R))
  (save_result : bool).
Implicit Types (s : run R M).

Lemma train_Ok_two (dataloader : list (batch R)) (r : list R) :
  train fsum fdiv ratio dataloader = Ok r → ∃ loss acc, r = [loss; acc].
Proof.
  unfold train. intros ([[iter_loss corrects] data_size] & _ & Hr)%bind_Ok.
  simpl in Hr. case_decide; [done|]. injection Hr as <-. eauto.
Qed.

Lemma test_Ok_two (dataloader : list (batch R)) (r : list R) :
  test fsum fdiv ratio dataloader = Ok r → ∃ loss acc, r = [loss; acc].
Proof.
  unfold test. destruct (test_loop _ _ _ _ _ _) as [[[i iter_loss] corrects] data_size].
  intros (? & _ & (? & _ & Hr)%bind_Ok)%bind_Ok.
  case_decide; [done|]. injection Hr as <-. eauto.
Qed.

Lemma saved_epochs_app (evs evs' : list (event R M)) :
  saved_epochs (evs ++ evs') = saved_epochs evs ++ saved_epochs evs'.
Proof. unfold saved_epochs. apply omap_app. Qed.

Lemma main_epoch_Ok (e : Z) s s' :
  main_epoch fsum fdiv ratio gtb state_dict train_loader test_loader save_result e s
  = Ok s' →
  Nat.Even (length (test_result s)) →
  ∃ tl ta l a,
    train fsum fdiv ratio (train_loader e) = Ok [tl; ta]
    ∧ test fsum fdiv ratio (test_loader e) = Ok [l; a]
    ∧ train_result s' = train_result s ++ [tl; ta]
    ∧ test_result s' = test_result s ++ [l; a]
    ∧ best_acc s' = best_acc s
    ∧ best s' = (if gtb a (best_acc s) then Some a else best s)
    ∧ events s'
      = events s
        ++ (if gtb a (best_acc s)
            then [TorchSave {| ck_model := state_dict e; ck_epoch := e + 1; ck_acc := a;
                               ck_train_result := train_result s ++ [tl; ta];
                               ck_test_result := test_result s ++ [l; a] |}]
            else [])
        ++ (if save_result
            then [SaveResult (train_result s ++ [tl; ta]) (test_result s ++ [l; a])]
            else []).
Proof.
  unfold main_epoch. intros (tr & Htr & (te & Hte & Hrest)%bind_Ok)%bind_Ok Heven.
  destruct (train_Ok_two _ _ Htr) as (tl & ta & ->).
  destruct (test_Ok_two _ _ Hte) as (l & a & ->).
  cbv zeta in Hrest.
  rewrite odd_items_app_even in Hrest by done. simpl in Hrest.
  rewrite py_index_last in Hrest. simpl in Hrest. injection Hrest as <-.
  exists tl, ta, l, a. simpl. repeat split; try done.
  destruct (gtb a (best_acc s)), save_result; simpl;
    rewrite ?app_nil_r, <- ?app_assoc; done.
Qed.

Lemma main_epochs_Ok (epochs : list Z) s s' :
  main_epochs fsum fdiv ratio gtb state_dict train_loader test_loader save_result
    epochs s = Ok s' →
  Nat.Even (length (test_result s)) →
  best_acc s' = best_acc s
  ∧ length (train_result s') = (length (train_result s) + 2 * length epochs)%nat
  ∧ length (test_result s') = (length (test_result s) + 2 * length epochs)%nat
  ∧ saved_epochs (events s')
    = saved_epochs (events s)
      ++ ((λ e, e + 1)
            <$> filter (λ e, epoch_beats fsum fdiv ratio gtb test_loader (best_acc s) e
                             = true) epochs).
Proof.
  revert s. induction epochs as [|e epochs IH]; intros s Hrun Heven.
  - simpl in Hrun. injection Hrun as <-. simpl. rewrite app_nil_r.
    repeat split; lia.
  - cbn [main_epochs] in Hrun. apply bind_Ok in Hrun as (s1 & Hstep & Hrun).
    apply main_epoch_Ok in Hstep
      as (tl & ta & l & a & _ & Htest & Htr & Hte & Hbest & _ & Hev); [|done].
    apply IH in Hrun as (Hb & Hltr & Hlte & Hsaved).
    2:{ rewrite Hte, length_app. simpl. destruct Heven as [n Hn]. exists (S n). lia. }
    rewrite Hb, Hbest. split; [done|].
    rewrite Hltr, Hlte, Htr, Hte, !length_app. simpl.
    split; [lia|]. split; [lia|].
    assert (epoch_beats fsum fdiv ratio gtb test_loader (best_acc s) e
            = gtb a (best_acc s)) as Hbeats by (unfold epoch_beats; by rewrite Htest).
    rewrite Hsaved, Hbest, Hev, !saved_epochs_app, filter_cons.
    destruct (gtb a (best_acc s)) eqn:Hgt.
    + rewrite decide_True by done.
      destruct save_result; simpl; rewrite ?app_nil_r, <- ?app_assoc; done.
    + rewrite decide_False by (rewrite Hbeats; done).
      destruct save_result; simpl; rewrite ?app_nil_r, <- ?app_assoc; done.
Qed.
End epoch_facts.

(** X20. The epoch loop of [main] never raises its bar: [best_acc] is the
    same after the loop as before it (the new accuracy goes to the unused
    variable [best]), so, starting from a [test_result] of even length, a
    checkpoint is written in exactly the epochs whose test accuracy
    exceeds the [best_acc] the loop started with, under the epoch number
    [e + 1], also after an earlier epoch did better. Each epoch adds two
    entries to [train_result] and two to [test_result]. *)
Theorem main_loop_bookkeeping {R M : Type} (fsum : list R → R) (fdiv : R → Z → R)
    (ratio : Z → Z → R) (gtb : R → R → bool) (state_dict : Z → M)
    (train_loader test_loader : Z → list (batch R)) (save_result : bool)
    (start_epoch epoch : Z) (s s' : run R M) :
  main_loop fsum fdiv ratio gtb state_dict train_loader test_loader save_result
    start_epoch epoch s = Ok s' →
  Nat.Even (length (test_result s)) →
  best_acc s' = best_acc s
  ∧ length (train_result s') = (length (train_result s) + 2 * Z.to_nat epoch)%nat
  ∧ length (test_result s') = (length (test_result s) + 2 * Z.to_nat epoch)%nat
  ∧ saved_epochs (events s')
    = saved_epochs (events s)
      ++ ((λ e, e + 1)
            <$> filter (λ e, epoch_beats fsum fdiv ratio gtb test_loader (best_acc s) e
                             = true) (seqZ start_epoch epoch)).
Proof.
  unfold main_loop. intros Hrun Heven.
  apply main_epochs_Ok in Hrun as (Hbest & Htr & Hte & Hsaved); [|done].
  rewrite length_seqZ in Htr, Hte. done.
Qed.

Lemma main_loop_bookkeeping_witness :
  ∃ s' : run Z unit,
    main_loop (foldr Z.add 0) Z.div (λ c n, (100 * c) `div` n) Z.gtb (λ _, ())
      (λ _, [ {| batch_size := 4; batch_loss := 8; batch_corrects := 3 |} ])
      (λ e, [ {| batch_size := 10; batch_loss := 20; batch_corrects := 9 - 2 * e |} ])
      true 0 3
      (snd (resume 0 None))
    = Ok s'
    ∧ odd_items (test_result s') = [90; 70; 50]
    ∧ best_acc s' = 0
    ∧ length (train_result s') = 6%nat
    ∧ length (test_result s') = 6%nat
    ∧ saved_epochs (events s') = [1; 2; 3].
Proof.
  eexists.
  match goal with |- ?r = Ok ?s ∧ _ =>
    assert (r = Ok s) as Hrun by (vm_compute; reflexivity)
  end.
  split; [exact Hrun|]. split; [reflexivity|].
  destruct (main_loop_bookkeeping _ _ _ _ _ _ _ _ _ _ _ _ Hrun)
    as (Hbest & Htr & Hte & Hsaved).
  - exists 0%nat. reflexivity.
  - split; [exact Hbest|]. split; [exact Htr|]. split; [exact Hte|].
    rewrite Hsaved. vm_compute. reflexivity.
Defined.

(** X21. A checkpoint written in an epoch resumes where that epoch ended:
    loading it gives [start_epoch = e + 1], the [train_result] and
    [test_result] the loop held at the end of epoch [e], and as [best_acc]
    the accuracy of that epoch. *)
Theorem checkpoint_resumes_after_its_epoch {R M : Type} (fsum : list R → R)
    (fdiv : R → Z → R) (ratio : Z → Z → R) (gtb : R → R → bool) (zero : R)
    (state_dict : Z → M) (train_loader test_loader : Z → list (batch R))
    (save_result : bool) (e : Z) (s s' : run R M) (ck : checkpoint R M) :
  main_epoch fsum fdiv ratio gtb state_dict train_loader test_loader save_result e s
  = Ok s' →
  Nat.Even (length (test_result s)) →
  TorchSave ck ∈ events s' → TorchSave ck ∉ events s →
  resume zero (Some ck)
  = (e + 1, {| train_result := train_result s'; test_result := test_result s';
               best_acc := ck_acc ck; best := None; events := [] |})
  ∧ py_index (odd_items (test_result s')) (-1) = Ok (ck_acc ck)
  ∧ ck_model ck = state_dict e.
Proof.
  intros Hstep Heven Hin Hnotin.
  apply main_epoch_Ok in Hstep
    as (tl & ta & l & a & _ & _ & Htr & Hte & _ & _ & Hev); [|done].
  rewrite Hev in Hin. apply elem_of_app in Hin as [Hin|Hin]; [done|].
  apply elem_of_app in Hin as [Hin|Hin].
  - destruct (gtb a (best_acc s)); [|by apply elem_of_nil in Hin].
    apply list_elem_of_singleton in Hin. injection Hin as ->.
    rewrite Htr, Hte. simpl. split; [done|]. split; [|done].
    rewrite odd_items_app_even by done. simpl. apply py_index_last.
  - destruct save_result; [|by apply elem_of_nil in Hin].
    by apply list_elem_of_singleton in Hin.
Qed.

Lemma checkpoint_resumes_after_its_epoch_witness :
  ∃ (s' : run Z unit) (ck : checkpoint Z unit),
    main_epoch (foldr Z.add 0) Z.div Z.div Z.gtb (λ _, ())
      (λ _, [ {| batch_size := 4; batch_loss := 8; batch_corrects := 3 |} ])
      (λ _, [ {| batch_size := 10; batch_loss := 20; batch_corrects := 40 |} ])
      true 5 (snd (resume 0 None))
    = Ok s'
    ∧ TorchSave ck ∈ events s'
    ∧ resume 0 (Some ck)
      = (5 + 1, {| train_result := train_result s'; test_result := test_result s';
                   best_acc := ck_acc ck; best := None; events := [] |})
    ∧ py_index (odd_items (test_result s')) (-1) = Ok (ck_acc ck)
    ∧ ck_model ck = ().
Proof.
  eexists _, _.
  match goal with |- ?r = Ok ?s ∧ _ =>
    assert (r = Ok s) as Hrun by (vm_compute; reflexivity)
  end.
  split; [exact Hrun|].
  assert (TorchSave
            {| ck_model := (); ck_epoch := 6; ck_acc := 4;
               ck_train_result := [2; 0]; ck_test_result := [2; 4] |}
          ∈ events
              {| train_result := [2; 0]; test_result := [2; 4]; best_acc := 0;
                 best := Some 4;
                 events :=
                   [TorchSave {| ck_model := (); ck_epoch := 6; ck_acc := 4;
                                 ck_train_result := [2; 0];
                                 ck_test_result := [2; 4] |};
                    SaveResult [2; 0] [2; 4]] |}) as Hin by (simpl; left).
  split; [exact Hin|].
  apply (checkpoint_resumes_after_its_epoch _ _ _ _ 0 _ _ _ _ _ _ _ _ Hrun).
  - exists 0%nat. reflexivity.
  - exact Hin.
  - simpl. apply not_elem_of_nil.
Defined.

(** X22. The captions of [coco_show] come from a table of 91 names: drawing
    succeeds for every list of four-number boxes whose labels lie between
    0 and 90, as the category ids of COCO do, and it raises [IndexError]
    when the first pair has a label of 91 or more. *)
Theorem draw_boxes_label_range {F32 : Type} (sub32 : F32 → F32 → F32)
    (boxes : list (list F32)) (labels : list Z) :
  Forall (λ box, length box = 4%nat) boxes →
  (Forall (λ label, 0 ≤ label < 91) labels →
   ∃ rects texts, draw_boxes sub32 boxes labels [] [] = Ok (rects, texts))
  ∧ (∀ label labels', labels = label :: labels' → boxes ≠ [] → 91 ≤ label →
     draw_boxes sub32 boxes labels [] [] = Raise IndexError).
Proof.
  intros Hboxes. split.
  - intros Hlabels. generalize (@nil (F32 * F32 * F32 * F32)) (@nil (F32 * F32 * string)).
    revert labels Hlabels.
    induction Hboxes as [|box boxes Hbox _ IH]; intros labels Hlabels rects texts.
    { destruct labels; simpl; eauto. }
    destruct Hlabels as [|label labels Hlabel Hlabels]; [simpl; eauto|].
    cbn [draw_boxes]. rewrite !(py_index_nonneg box) by lia.
    destruct box as [|x1 [|y1 [|x2 [|y2 [|? ?]]]]]; try discriminate. simpl.
    destruct (CLASSES_lookup label Hlabel) as [name ->]. simpl. by apply IH.
  - intros label labels' -> Hne Hlabel.
    destruct Hboxes as [|box boxes Hbox _]; [done|].
    cbn [draw_boxes]. rewrite !(py_index_nonneg box) by lia.
    destruct box as [|x1 [|y1 [|x2 [|y2 [|? ?]]]]]; try discriminate. simpl.
    rewrite (py_index_out_of_range CLASSES label); [done|].
    left. change (length CLASSES) with 91%nat. lia.
Qed.

Lemma draw_boxes_label_range_witness :
  (∃ rects texts,
     draw_boxes Z.sub [[10; 10; 60; 90]; [5; 5; 25; 25]] [1; 18] [] [] = Ok (rects, texts))
  ∧ draw_boxes Z.sub [[10; 10; 60; 90]] [91] [] [] = Raise IndexError.
Proof.
  split.
  - apply (proj1 (draw_boxes_label_range Z.sub [[10; 10; 60; 90]; [5; 5; 25; 25]] [1; 18]
                    ltac:(repeat constructor))).
    repeat constructor; lia.
  - apply (proj2 (draw_boxes_label_range Z.sub [[10; 10; 60; 90]] [91]
                    ltac:(repeat constructor)) 91 []); [reflexivity|discriminate|lia].
Defined.
